(** * Authentication and session lifecycle of the trivia backend

    A shallow embedding of [backend/src/middleware/auth.ts] (class
    [AuthService]) and of the session methods of
    [backend/src/database/redis.ts] (class [RedisManager]), followed by the
    properties of token issuance, verification, rotation and revocation.

    The source is asynchronous TypeScript.  An [async] function is embedded
    as a program tree ([Prog]) whose nodes are the effects the function
    performs: reading the clock, drawing a UUID, writing a log line, and the
    commands sent to the Redis client.  A tree is run to completion against
    a [World] by [run]; two trees are interleaved at the commands they
    send to Redis by [interleave], which is how two requests served at the
    same time behave. *)

From Stdlib Require Import ZArith Bool List Lia.
From stdpp Require Import base option gmap strings.

Local Open Scope string_scope.
Local Open Scope Z_scope.

(** ** Data *)

(** The row of the [users] table handed to [generateTokens] (typed [any] in
    the source).  [is_host] and [is_verified] may be missing, which is why
    the source reads them through [|| false]. *)
Record User := mkUser {
  id : string;
  u_email : string;
  u_username : string;
  is_host : option bool;
  is_verified : option bool
}.

(** [interface JWTPayload].  A field that a token does not carry is
    [undefined] in JavaScript and [None] here: the refresh token is signed
    over [{ sessionId, userId }] only, and the source casts whatever
    [jwt.verify] returns to [JWTPayload]. *)
Record JWTPayload := mkPayload {
  userId : string;
  email : option string;
  username : option string;
  isHost : option bool;
  isVerified : option bool;
  sessionId : string;
  deviceId : option string;
  iat : option Z;
  exp : option Z
}.

(** A token string.  [jsonwebtoken] is a library outside the repository; a
    token is modelled by what [jwt.verify] can tell about it: either it
    does not parse, or it is a payload signed under some key. *)
Inductive Token :=
| Garbage (text : string)
| Jwt (key : string) (claims : JWTPayload).

(** The object stored under [session:<id>].  [generateTokens] writes
    [userId], [deviceId], [createdAt] and [lastActivity];
    [refreshTokens] also reads [email], [username], [isHost] and
    [isVerified] from it, so the record has room for them.  Timestamps are
    the clock reading in milliseconds that [toISOString] renders. *)
Record Session := mkSession {
  s_userId : string;
  s_deviceId : option string;
  createdAt : Z;
  lastActivity : Z;
  s_email : option string;
  s_username : option string;
  s_isHost : option bool;
  s_isVerified : option bool
}.

(** [config.jwt]; [expiresIn] and [refreshExpiresIn] are the spans in
    seconds that the strings ['1h'] and ['7d'] of the source stand for. *)
Record Config := mkConfig {
  secret : string;
  expiresIn : Z;
  refreshExpiresIn : Z
}.

Definition default_config : Config :=
  {| secret := "dev_jwt_secret_change_in_production";
     expiresIn := 3600;
     refreshExpiresIn := 604800 |}.

(** What a JavaScript [throw] carries in these functions. *)
Inductive JsError :=
| TokenExpiredError
| JsonWebTokenError (message : string)
| Error (message : string).

Inductive Level := LDebug | LInfo | LWarn | LError.

(** The source reports every failure of [verifyToken] and [refreshTokens]
    as [null].  [Failure] names the branch that returned it, so that
    properties about the kind of a failure can be stated; [js_value]
    forgets the name and gives back what the caller sees.
    [TokenKindMismatch] and [GenerationMismatch] belong to the taxonomy of
    the design document; no branch of the source returns them. *)
Inductive Failure :=
| TokenInvalid
| TokenExpired
| TokenKindMismatch
| SessionNotFound
| SessionUserMismatch
| GenerationMismatch
| StoreUnavailable.

Inductive Outcome (A : Type) :=
| Granted (a : A)
| Null (why : Failure).
Arguments Granted {A} a.
Arguments Null {A} why.

Definition js_value {A} (o : Outcome A) : option A :=
  match o with Granted a => Some a | Null _ => None end.

(** The result of [generateTokens]. *)
Record TokenBundle := mkBundle {
  accessToken : Token;
  refreshToken : Token;
  b_sessionId : string
}.

(** The result of [refreshTokens]. *)
Record TokenPair := mkPair {
  p_accessToken : Token;
  p_refreshToken : Token
}.

(** ** The world an [async] function runs in *)

(** - [clock]: [Date.now()], in milliseconds;
    - [client], [isConnected]: the two private fields of [RedisManager]
      ([client] is [true] when the field is not [null]);
    - [redis]: the keys of the Redis database, each with the instant (in
      milliseconds) at which its TTL runs out;
    - [faults]: for the next commands sent to the Redis client, whether the
      command is rejected ([true]) or carried out; an empty list means no
      command is rejected;
    - [uuids], [uuid_next]: the values [randomUUID()] returns, in order;
    - [log]: the lines written through [logger]. *)
Record World := mkWorld {
  clock : Z;
  client : bool;
  isConnected : bool;
  redis : gmap string (Z * Session);
  faults : list bool;
  uuids : nat -> string;
  uuid_next : nat;
  log : list (Level * string)
}.

Definition set_redis (m : gmap string (Z * Session)) (w : World) : World :=
  mkWorld (clock w) (client w) (isConnected w) m (faults w)
          (uuids w) (uuid_next w) (log w).

Definition set_faults (f : list bool) (w : World) : World :=
  mkWorld (clock w) (client w) (isConnected w) (redis w) f
          (uuids w) (uuid_next w) (log w).

Definition set_uuid_next (n : nat) (w : World) : World :=
  mkWorld (clock w) (client w) (isConnected w) (redis w) (faults w)
          (uuids w) n (log w).

Definition add_log (lvl : Level) (msg : string) (w : World) : World :=
  mkWorld (clock w) (client w) (isConnected w) (redis w) (faults w)
          (uuids w) (uuid_next w) (log w ++ [(lvl, msg)]).

Definition set_clock (t : Z) (w : World) : World :=
  mkWorld t (client w) (isConnected w) (redis w) (faults w)
          (uuids w) (uuid_next w) (log w).

(** Whether the next client command is rejected, and the world once that
    answer is used up. *)
Definition next_fault (w : World) : bool * World :=
  match faults w with
  | [] => (false, w)
  | b :: rest => (b, set_faults rest w)
  end.

(** Redis [GET]: a key whose TTL has run out is gone. *)
Definition redis_get (w : World) (key : string) : option Session :=
  match redis w !! key with
  | Some (deadline, v) => if clock w <? deadline then Some v else None
  | None => None
  end.

(** Redis [SETEX key ttl value], [ttl] in seconds. *)
Definition redis_setex (key : string) (ttl : Z) (v : Session) (w : World) : World :=
  set_redis (<[key := (clock w + ttl * 1000, v)]> (redis w)) w.

(** Redis [DEL key]. *)
Definition redis_del (key : string) (w : World) : World :=
  set_redis (delete key (redis w)) w.

(** ** Programs *)

(** How a promise returned by the Redis client settles. *)
Inductive Settled (A : Type) :=
| Fulfilled (a : A)
| Rejected (e : JsError).
Arguments Fulfilled {A} a.
Arguments Rejected {A} e.

(** An [async] function body: it returns, throws, or performs one effect
    and goes on with its answer. *)
Inductive Prog (A : Type) : Type :=
| Ret (a : A)
| Throw (e : JsError)
| DateNow (k : Z -> Prog A)
| RandomUUID (k : string -> Prog A)
| LogLine (lvl : Level) (msg : string) (k : Prog A)
| IsReady (k : bool -> Prog A)
| ClientGet (key : string) (k : Settled (option Session) -> Prog A)
| ClientSetEx (key : string) (ttl : Z) (v : Session) (k : Settled unit -> Prog A)
| ClientDel (key : string) (k : Settled unit -> Prog A).
Arguments Ret {A} a.
Arguments Throw {A} e.
Arguments DateNow {A} k.
Arguments RandomUUID {A} k.
Arguments LogLine {A} lvl msg k.
Arguments IsReady {A} k.
Arguments ClientGet {A} key k.
Arguments ClientSetEx {A} key ttl v k.
Arguments ClientDel {A} key k.

Fixpoint bind {A B} (p : Prog A) (f : A -> Prog B) : Prog B :=
  match p with
  | Ret a => f a
  | Throw e => Throw e
  | DateNow k => DateNow (fun t => bind (k t) f)
  | RandomUUID k => RandomUUID (fun u => bind (k u) f)
  | LogLine lvl msg k => LogLine lvl msg (bind k f)
  | IsReady k => IsReady (fun b => bind (k b) f)
  | ClientGet key k => ClientGet key (fun r => bind (k r) f)
  | ClientSetEx key ttl v k => ClientSetEx key ttl v (fun r => bind (k r) f)
  | ClientDel key k => ClientDel key (fun r => bind (k r) f)
  end.

(** [try { p } catch (error) { h error }]. *)
Fixpoint try_catch {A} (p : Prog A) (h : JsError -> Prog A) : Prog A :=
  match p with
  | Ret a => Ret a
  | Throw e => h e
  | DateNow k => DateNow (fun t => try_catch (k t) h)
  | RandomUUID k => RandomUUID (fun u => try_catch (k u) h)
  | LogLine lvl msg k => LogLine lvl msg (try_catch k h)
  | IsReady k => IsReady (fun b => try_catch (k b) h)
  | ClientGet key k => ClientGet key (fun r => try_catch (k r) h)
  | ClientSetEx key ttl v k => ClientSetEx key ttl v (fun r => try_catch (k r) h)
  | ClientDel key k => ClientDel key (fun r => try_catch (k r) h)
  end.

Notation "'let!' x ':=' p 'in' q" := (bind p (fun x => q))
  (at level 10, x name, p at level 100, q at level 200).
Notation "'do!' p 'in' q" := (bind p (fun _ => q))
  (at level 10, p at level 100, q at level 200).

(** [await promise]: a rejected promise throws at the [await]. *)
Definition await {A} (s : Settled A) : Prog A :=
  match s with
  | Fulfilled a => Ret a
  | Rejected e => Throw e
  end.

(** How a call ends. *)
Inductive Completion (A : Type) :=
| Returned (a : A)
| Thrown (e : JsError).
Arguments Returned {A} a.
Arguments Thrown {A} e.

(** The error a rejected client command carries. *)
Definition command_error : JsError := Error "Redis command failed".

(** Run a program to its end, with nothing else touching the world. *)
Fixpoint run {A} (p : Prog A) (w : World) : Completion A * World :=
  match p with
  | Ret a => (Returned a, w)
  | Throw e => (Thrown e, w)
  | DateNow k => run (k (clock w)) w
  | RandomUUID k =>
      run (k (uuids w (uuid_next w))) (set_uuid_next (S (uuid_next w)) w)
  | LogLine lvl msg k => run k (add_log lvl msg w)
  | IsReady k => run (k (isConnected w && client w)) w
  | ClientGet key k =>
      let (bad, w1) := next_fault w in
      if bad then run (k (Rejected command_error)) w1
      else run (k (Fulfilled (redis_get w1 key))) w1
  | ClientSetEx key ttl v k =>
      let (bad, w1) := next_fault w in
      if bad then run (k (Rejected command_error)) w1
      else run (k (Fulfilled tt)) (redis_setex key ttl v w1)
  | ClientDel key k =>
      let (bad, w1) := next_fault w in
      if bad then run (k (Rejected command_error)) w1
      else run (k (Fulfilled tt)) (redis_del key w1)
  end.

(** One turn of the event loop: the synchronous code up to the next command
    sent to the Redis client, and that command.  What is left of the
    program waits for the answer; a program with no command left runs to
    its end. *)
Fixpoint step {A} (p : Prog A) (w : World) : Prog A * World :=
  match p with
  | Ret a => (Ret a, w)
  | Throw e => (Throw e, w)
  | DateNow k => step (k (clock w)) w
  | RandomUUID k =>
      step (k (uuids w (uuid_next w))) (set_uuid_next (S (uuid_next w)) w)
  | LogLine lvl msg k => step k (add_log lvl msg w)
  | IsReady k => step (k (isConnected w && client w)) w
  | ClientGet key k =>
      let (bad, w1) := next_fault w in
      if bad then (k (Rejected command_error), w1)
      else (k (Fulfilled (redis_get w1 key)), w1)
  | ClientSetEx key ttl v k =>
      let (bad, w1) := next_fault w in
      if bad then (k (Rejected command_error), w1)
      else (k (Fulfilled tt), redis_setex key ttl v w1)
  | ClientDel key k =>
      let (bad, w1) := next_fault w in
      if bad then (k (Rejected command_error), w1)
      else (k (Fulfilled tt), redis_del key w1)
  end.

(** Two calls in flight at once.  The schedule says whose turn it is:
    [true] for the first call, [false] for the second. *)
Fixpoint interleave {A B} (schedule : list bool) (p : Prog A) (q : Prog B)
    (w : World) : Prog A * Prog B * World :=
  match schedule with
  | [] => (p, q, w)
  | true :: rest => let (p', w') := step p w in interleave rest p' q w'
  | false :: rest => let (q', w') := step q w in interleave rest p q' w'
  end.

(** ** JavaScript and [jsonwebtoken] *)

(** [o || d] on a string that may be [undefined]: the empty string is
    falsy. *)
Definition or_string (o : option string) (d : string) : string :=
  match o with
  | Some s => if String.eqb s "" then d else s
  | None => d
  end.

(** [o || d] on a boolean that may be [undefined]. *)
Definition or_bool (o : option bool) (d : bool) : bool :=
  match o with
  | Some true => true
  | _ => d
  end.

(** [jwt.sign(payload, key, { expiresIn })]: stamps [iat] with the clock in
    seconds and [exp] with [iat + expiresIn]. *)
Definition stamp (payload : JWTPayload) (seconds span : Z) : JWTPayload :=
  {| userId := userId payload;
     email := email payload;
     username := username payload;
     isHost := isHost payload;
     isVerified := isVerified payload;
     sessionId := sessionId payload;
     deviceId := deviceId payload;
     iat := Some seconds;
     exp := Some (seconds + span) |}.

Definition jwt_sign (payload : JWTPayload) (key : string) (span : Z) : Prog Token :=
  DateNow (fun now => Ret (Jwt key (stamp payload (now / 1000) span))).

(** [jwt.verify(token, key)]: the token must parse, then the signature
    must be the key's, then [exp], when present, must lie in the future
    ([clockTimestamp >= payload.exp] is expired). *)
Definition jwt_verify (token : Token) (key : string) : Prog JWTPayload :=
  match token with
  | Garbage _ => Throw (JsonWebTokenError "jwt malformed")
  | Jwt signer claims =>
      if String.eqb signer key then
        DateNow (fun now =>
          match exp claims with
          | Some deadline =>
              if deadline <=? now / 1000 then Throw TokenExpiredError
              else Ret claims
          | None => Ret claims
          end)
      else Throw (JsonWebTokenError "invalid signature")
  end.

(** ** [RedisManager]: session methods *)

(** [`session:${sessionId}`]. *)
Definition session_key (sessionId : string) : string :=
  "session:" +:+ sessionId.

(** [setSession(sessionId, data, ttl)]; every caller passes [ttl]. *)
Definition setSession (sessionId : string) (data : Session) (ttl : Z) : Prog unit :=
  IsReady (fun ready =>
    if negb ready then Throw (Error "Redis not connected")
    else ClientSetEx (session_key sessionId) ttl data await).

(** [getSession(sessionId)]: [data ? JSON.parse(data) : null]. *)
Definition getSession (sessionId : string) : Prog (option Session) :=
  IsReady (fun ready =>
    if negb ready then Throw (Error "Redis not connected")
    else ClientGet (session_key sessionId) await).

Definition deleteSession (sessionId : string) : Prog unit :=
  IsReady (fun ready =>
    if negb ready then Throw (Error "Redis not connected")
    else ClientDel (session_key sessionId) await).

(** ** [AuthService] *)

(** [7 * 24 * 60 * 60]: seven days, in seconds. *)
Definition session_ttl : Z := 7 * 24 * 60 * 60.

(** [session.lastActivity = new Date().toISOString()]. *)
Definition touch (session : Session) (now : Z) : Session :=
  {| s_userId := s_userId session;
     s_deviceId := s_deviceId session;
     createdAt := createdAt session;
     lastActivity := now;
     s_email := s_email session;
     s_username := s_username session;
     s_isHost := s_isHost session;
     s_isVerified := s_isVerified session |}.

(** The name of the failure behind a caught error. *)
Definition failure_of (error : JsError) : Failure :=
  match error with
  | TokenExpiredError => TokenExpired
  | JsonWebTokenError _ => TokenInvalid
  | Error _ => StoreUnavailable
  end.

Section AuthService.

Variable config : Config.

Definition access_payload (user : User) (sid : string) (device : option string)
    : JWTPayload :=
  {| userId := id user;
     email := Some (u_email user);
     username := Some (u_username user);
     isHost := Some (or_bool (is_host user) false);
     isVerified := Some (or_bool (is_verified user) false);
     sessionId := sid;
     deviceId := device;
     iat := None;
     exp := None |}.

Definition refresh_payload (user : User) (sid : string) : JWTPayload :=
  {| userId := id user;
     email := None;
     username := None;
     isHost := None;
     isVerified := None;
     sessionId := sid;
     deviceId := None;
     iat := None;
     exp := None |}.

(** The record [generateTokens] stores: [{ userId, deviceId, createdAt,
    lastActivity }]. *)
Definition new_session (user : User) (device : option string) (created active : Z)
    : Session :=
  {| s_userId := id user;
     s_deviceId := device;
     createdAt := created;
     lastActivity := active;
     s_email := None;
     s_username := None;
     s_isHost := None;
     s_isVerified := None |}.

Definition generateTokens (user : User) (device : option string) : Prog TokenBundle :=
  RandomUUID (fun sid =>
    let payload := access_payload user sid device in
    let! access := jwt_sign payload (secret config) (expiresIn config) in
    let! refresh :=
      jwt_sign (refresh_payload user sid) (secret config) (refreshExpiresIn config) in
    DateNow (fun created =>
    DateNow (fun active =>
      do! setSession sid (new_session user device created active) session_ttl in
      Ret {| accessToken := access; refreshToken := refresh; b_sessionId := sid |}))).

Definition verifyToken (token : Token) : Prog (Outcome JWTPayload) :=
  try_catch
    (let! decoded := jwt_verify token (secret config) in
     let! found := getSession (sessionId decoded) in
     match found with
     | None =>
         LogLine LWarn ("Session not found for token: " +:+ sessionId decoded)
           (Ret (Null SessionNotFound))
     | Some session =>
         DateNow (fun now =>
           do! setSession (sessionId decoded) (touch session now) session_ttl in
           Ret (Granted decoded))
     end)
    (fun error =>
       match error with
       | TokenExpiredError =>
           LogLine LDebug "Token expired" (Ret (Null (failure_of error)))
       | JsonWebTokenError _ =>
           LogLine LWarn "Invalid token" (Ret (Null (failure_of error)))
       | Error _ =>
           LogLine LError "Token verification error:" (Ret (Null (failure_of error)))
       end).

(** The [user] object [refreshTokens] builds from the session record. *)
Definition session_user (session : Session) : User :=
  {| id := s_userId session;
     u_email := or_string (s_email session) "";
     u_username := or_string (s_username session) "";
     is_host := Some (or_bool (s_isHost session) false);
     is_verified := Some (or_bool (s_isVerified session) false) |}.

Definition refreshTokens (token : Token) : Prog (Outcome TokenPair) :=
  try_catch
    (let! decoded := jwt_verify token (secret config) in
     let! found := getSession (sessionId decoded) in
     match found with
     | None => Ret (Null SessionNotFound)
     | Some session =>
         if negb (String.eqb (s_userId session) (userId decoded))
         then Ret (Null SessionUserMismatch)
         else
           let user := session_user session in
           let! tokens := generateTokens user (s_deviceId session) in
           do! deleteSession (sessionId decoded) in
           Ret (Granted {| p_accessToken := accessToken tokens;
                           p_refreshToken := refreshToken tokens |})
     end)
    (fun error =>
       LogLine LError "Refresh token error:" (Ret (Null (failure_of error)))).

Definition revokeSession (sid : string) : Prog unit :=
  deleteSession sid.

Definition revokeAllUserSessions (uid : string) : Prog unit :=
  LogLine LInfo ("Revoking all sessions for user: " +:+ uid) (Ret tt).

End AuthService.

(** ** Express: the middleware of [auth.ts] and the token controllers *)

(** [req.user], as [authenticate] fills it from the payload: a field the
    token does not carry is [undefined]. *)
Record RequestUser := mkRequestUser {
  ru_id : string;
  ru_email : option string;
  ru_username : option string;
  ru_isHost : option bool;
  ru_isVerified : option bool
}.

(** What the middleware reads and sets of a request:
    [req.headers.authorization], [req.user] and [req.deviceId];
    [req.body.refreshToken] rides along untouched. *)
Record AuthenticatedRequest := mkRequest {
  authorization : option string;
  req_user : option RequestUser;
  req_deviceId : option string;
  body_refreshToken : option string
}.

(** The JSON bodies the handlers send. *)
Inductive Body :=
| ErrorBody (error : string)
| MessageBody (message : string)
| TokensBody (message : string) (tokens : TokenPair).

(** How a handler ends: it calls [next()] with the request as it has left
    it, or it sends a response. *)
Inductive Handled :=
| Next (req : AuthenticatedRequest)
| Respond (status : Z) (body : Body).

(** [s.substring(n)]. *)
Definition substring_from (n : nat) (s : string) : string :=
  String.substring n (String.length s - n) s.

(** [!s] is false for a string that is there and not empty. *)
Definition present (o : option string) : bool :=
  match o with
  | Some s => negb (String.eqb s "")
  | None => false
  end.

(** [req.user = { id: payload.userId, ... }; req.deviceId = payload.deviceId]. *)
Definition with_identity (req : AuthenticatedRequest) (payload : JWTPayload)
    : AuthenticatedRequest :=
  {| authorization := authorization req;
     req_user := Some {| ru_id := userId payload;
                         ru_email := email payload;
                         ru_username := username payload;
                         ru_isHost := isHost payload;
                         ru_isVerified := isVerified payload |};
     req_deviceId := deviceId payload;
     body_refreshToken := body_refreshToken req |}.

(** [reconnectStrategy] of the Redis client: the delay in milliseconds
    before the next attempt, or [false] ([None]) to give up.  [retries] is
    the number of attempts the client has made so far, a whole number from
    zero up; the source computes on doubles, which agree with [Z] on the
    one product formed here for such a count (at most [10 * 50]). *)
Definition reconnectStrategy (retries : Z) : Prog (option Z) :=
  if 10 <? retries then
    LogLine LError "Redis connection failed after 10 retries" (Ret None)
  else Ret (Some (Z.min (retries * 50) 500)).

(** A property read from a JSON body: [undefined] or [null], a string, or
    anything else (a number, a boolean, an object, an array), of which
    only the truthiness matters here. *)
Inductive BodyValue :=
| NoValue
| Text (text : string)
| NotText (truthy : bool).

(** [!value]. *)
Definition falsy (value : BodyValue) : bool :=
  match value with
  | NoValue => true
  | Text text => String.eqb text ""
  | NotText truthy => negb truthy
  end.

(** The plain [Request] of the refresh route: [req.body] is [undefined]
    ([None]) when no body parser has filled it, and otherwise an object,
    of which the controller reads the property [refreshToken]. *)
Record Request := mkPlainRequest {
  req_body : option BodyValue
}.

Section Middleware.

Variable config : Config.

(** The token a bearer string is, as [jwt.verify] reads it. *)
Variable wire : string -> Token.

Definition authenticate (req : AuthenticatedRequest) : Prog Handled :=
  try_catch
    (let authHeader := authorization req in
     if negb (present authHeader)
        || negb (String.prefix "Bearer " (default "" authHeader))
     then Ret (Respond 401 (ErrorBody "Authorization token required"))
     else
       let token := substring_from 7 (default "" authHeader) in
       let! payload := verifyToken config (wire token) in
       match payload with
       | Null _ => Ret (Respond 401 (ErrorBody "Invalid or expired token"))
       | Granted payload => Ret (Next (with_identity req payload))
       end)
    (fun error =>
       LogLine LError "Authentication middleware error:"
         (Ret (Respond 500 (ErrorBody "Authentication error")))).

Definition requireHost (req : AuthenticatedRequest) : Handled :=
  match req_user req with
  | None => Respond 401 (ErrorBody "Authentication required")
  | Some user =>
      if negb (or_bool (ru_isHost user) false)
      then Respond 403 (ErrorBody "Host privileges required")
      else Next req
  end.

Definition requireVerified (req : AuthenticatedRequest) : Handled :=
  match req_user req with
  | None => Respond 401 (ErrorBody "Authentication required")
  | Some user =>
      if negb (or_bool (ru_isVerified user) false)
      then Respond 403 (ErrorBody "Email verification required")
      else Next req
  end.

Definition optionalAuth (req : AuthenticatedRequest) : Prog Handled :=
  try_catch
    (let authHeader := authorization req in
     if present authHeader && String.prefix "Bearer " (default "" authHeader)
     then
       let token := substring_from 7 (default "" authHeader) in
       let! payload := verifyToken config (wire token) in
       match payload with
       | Granted payload => Ret (Next (with_identity req payload))
       | Null _ => Ret (Next req)
       end
     else Ret (Next req))
    (fun error =>
       LogLine LDebug "Optional auth failed, continuing without user:"
         (Ret (Next req))).

(** What [jwt.verify] is handed: a value that is not a string is refused
    with a [JsonWebTokenError], as is a string that does not parse. *)
Definition presented (value : BodyValue) : Token :=
  match value with
  | Text text => wire text
  | NoValue | NotText _ => Garbage ""
  end.

(** The [refreshToken] controller of the user service.  The destructuring
    [const { refreshToken } = req.body] stands inside the [try] and throws
    a [TypeError] when [req.body] is [undefined]. *)
Definition refreshToken_controller (req : Request) : Prog Handled :=
  try_catch
    (match req_body req with
     | None =>
         Throw (Error "Cannot destructure property 'refreshToken' of 'req.body'")
     | Some refreshToken =>
         if falsy refreshToken
         then Ret (Respond 400 (ErrorBody "Refresh token required"))
         else
           let! tokens := refreshTokens config (presented refreshToken) in
           match tokens with
           | Null _ => Ret (Respond 401 (ErrorBody "Invalid refresh token"))
           | Granted tokens =>
               Ret (Respond 200 (TokensBody "Tokens refreshed successfully" tokens))
           end
     end)
    (fun error =>
       LogLine LError "Token refresh error:"
         (Ret (Respond 401 (ErrorBody "Token refresh failed")))).

(** The [logout] controller of the user service. *)
Definition logout (req : AuthenticatedRequest) : Prog Handled :=
  try_catch
    (Ret (Respond 200 (MessageBody "Logout successful")))
    (fun error =>
       LogLine LError "Logout error:" (Ret (Respond 500 (ErrorBody "Logout failed")))).

(** [router.use(authenticate)] in front of a handler: the handler runs on
    the request [authenticate] passes on, if it passes one on. *)
Definition behind_authenticate (handler : AuthenticatedRequest -> Prog Handled)
    (req : AuthenticatedRequest) : Prog Handled :=
  let! handled := authenticate req in
  match handled with
  | Next req' => handler req'
  | Respond status body => Ret (Respond status body)
  end.

End Middleware.

(** The bearer token of a request. *)
Definition bearer_of (req : AuthenticatedRequest) : string :=
  substring_from 7 (default "" (authorization req)).

Definition has_bearer (req : AuthenticatedRequest) : bool :=
  present (authorization req)
  && String.prefix "Bearer " (default "" (authorization req)).

(** ** Conditions on the world *)

(** The Redis client is connected and rejects no command. *)
Definition available (w : World) : Prop :=
  isConnected w = true /\ client w = true /\ faults w = [].

(** The token's [exp], if any, lies after the clock. *)
Definition unexpired (claims : JWTPayload) (w : World) : Prop :=
  forall deadline, exp claims = Some deadline -> clock w / 1000 < deadline.

(** What stands between a session method and its Redis command: the
    [isReady()] guard, then whether the client rejects the command.  The
    answer is the error the method throws, if any, and the world once the
    rejection, if one was due, is used up. *)
Definition attempt (w : World) : option JsError * World :=
  if isConnected w && client w then
    let (bad, w1) := next_fault w in
    (if bad then Some command_error else None, w1)
  else (Some (Error "Redis not connected"), w).

(** Two worlds that differ at most in the rejections still due. *)
Definition same_but_faults (w w1 : World) : Prop :=
  clock w1 = clock w /\ client w1 = client w /\ isConnected w1 = isConnected w /\
  redis w1 = redis w /\ uuids w1 = uuids w /\ uuid_next w1 = uuid_next w /\
  log w1 = log w.

(** ** What the store holds *)

(** A session record with none of [email], [username], [isHost],
    [isVerified]. *)
Definition bare (s : Session) : Prop :=
  s_email s = None /\ s_username s = None /\
  s_isHost s = None /\ s_isVerified s = None.

Definition bare_store (w : World) : Prop :=
  forall key deadline s, redis w !! key = Some (deadline, s) -> bare s.

(** A program that stores bare records only, as long as the records it
    reads are bare. *)
Fixpoint writes_bare {A} (p : Prog A) : Prop :=
  match p with
  | Ret _ | Throw _ => True
  | DateNow k => forall t, writes_bare (k t)
  | RandomUUID k => forall u, writes_bare (k u)
  | LogLine _ _ k => writes_bare k
  | IsReady k => forall b, writes_bare (k b)
  | ClientGet _ k =>
      (forall e, writes_bare (k (Rejected e))) /\
      writes_bare (k (Fulfilled None)) /\
      (forall s, bare s -> writes_bare (k (Fulfilled (Some s))))
  | ClientSetEx _ _ v k => bare v /\ forall r, writes_bare (k r)
  | ClientDel _ k => forall r, writes_bare (k r)
  end.

(** A program whose every write goes under a [session:] key. *)
Fixpoint writes_session_keys {A} (p : Prog A) : Prop :=
  match p with
  | Ret _ | Throw _ => True
  | DateNow k => forall t, writes_session_keys (k t)
  | RandomUUID k => forall u, writes_session_keys (k u)
  | LogLine _ _ k => writes_session_keys k
  | IsReady k => forall b, writes_session_keys (k b)
  | ClientGet _ k => forall r, writes_session_keys (k r)
  | ClientSetEx key _ _ k =>
      (exists sid, key = session_key sid) /\ forall r, writes_session_keys (k r)
  | ClientDel _ k => forall r, writes_session_keys (k r)
  end.

Definition session_keys_only (w : World) : Prop :=
  forall key, is_Some (redis w !! key) -> exists sid, key = session_key sid.

(** The calls the routing layer makes into [AuthService]. *)
Inductive Call :=
| CallGenerateTokens (user : User) (device : option string)
| CallVerifyToken (token : Token)
| CallRefreshTokens (token : Token)
| CallRevokeSession (sid : string)
| CallRevokeAllUserSessions (uid : string).

(** The world after a call has run to its end. *)
Definition perform (config : Config) (c : Call) (w : World) : World :=
  match c with
  | CallGenerateTokens user device => snd (run (generateTokens config user device) w)
  | CallVerifyToken token => snd (run (verifyToken config token) w)
  | CallRefreshTokens token => snd (run (refreshTokens config token) w)
  | CallRevokeSession sid => snd (run (revokeSession sid) w)
  | CallRevokeAllUserSessions uid => snd (run (revokeAllUserSessions uid) w)
  end.

(** The worlds the service can be in: it starts on an empty database, calls
    run one after the other, and between two calls anything but the
    database may change (time passes, the connection drops or comes
    back). *)
Inductive reachable (config : Config) : World -> Prop :=
| reach_start w : redis w = ∅ -> reachable config w
| reach_call w c : reachable config w -> reachable config (perform config c w)
| reach_drift w w' : reachable config w -> redis w' = redis w -> reachable config w'.

(** ** Sample data *)

Definition alice : User :=
  {| id := "u1";
     u_email := "alice@example.org";
     u_username := "alice";
     is_host := Some true;
     is_verified := Some true |}.

Definition uuid_table (n : nat) : string :=
  match n with
  | O => "s0"
  | S O => "s1"
  | S (S O) => "s2"
  | _ => "s3"
  end.

(** A connected client, an empty database, one million milliseconds on the
    clock. *)
Definition w0 : World :=
  {| clock := 1000000;
     client := true;
     isConnected := true;
     redis := ∅;
     faults := [];
     uuids := uuid_table;
     uuid_next := 0;
     log := [] |}.

(** The default for a call that did not return. *)
Definition returned {A} (d : A) (c : Completion A) : A :=
  match c with
  | Returned a => a
  | Thrown _ => d
  end.

Definition granted {A} (d : A) (o : Outcome A) : A :=
  match o with
  | Granted a => a
  | Null _ => d
  end.

Definition no_bundle : TokenBundle :=
  {| accessToken := Garbage ""; refreshToken := Garbage ""; b_sessionId := "" |}.

Definition no_pair : TokenPair :=
  {| p_accessToken := Garbage ""; p_refreshToken := Garbage "" |}.

(** Alice logs in on [w0]: pair A.  Then her refresh token is rotated:
    pair B. *)
Definition login_run : Completion TokenBundle * World :=
  run (generateTokens default_config alice (Some "phone")) w0.
Definition pair_A : TokenBundle := returned no_bundle (fst login_run).
Definition w_login : World := snd login_run.

Definition rotate_run : Completion (Outcome TokenPair) * World :=
  run (refreshTokens default_config (refreshToken pair_A)) w_login.
Definition pair_B : TokenPair := granted no_pair (returned (Null TokenInvalid) (fst rotate_run)).
Definition w_rotated : World := snd rotate_run.


(** Alice has logged in; the client will carry out the next command and
    reject the one after. *)
Definition w_flaky : World := set_faults [false; true] w_login.

(** Another user, and a refresh token signed for her over Alice's
    session. *)
Definition mallory : User :=
  {| id := "u2";
     u_email := "mallory@example.org";
     u_username := "mallory";
     is_host := None;
     is_verified := None |}.

Definition forged_refresh : Token :=
  Jwt (secret default_config) (stamp (refresh_payload mallory "s0") 1000 604800).





(** The payloads of Alice's first pair. *)
Definition claims_A1 : JWTPayload :=
  stamp (access_payload alice "s0" (Some "phone")) 1000 3600.
Definition claims_R1 : JWTPayload :=
  stamp (refresh_payload alice "s0") 1000 604800.

(** Alice's session record, as her login stored it. *)
Definition session_A : Session :=
  new_session alice (Some "phone") 1000000 1000000.

(** The bearer strings of the four tokens above. *)
Definition sample_wire (text : string) : Token :=
  if String.eqb text "A1" then accessToken pair_A
  else if String.eqb text "R1" then refreshToken pair_A
  else if String.eqb text "A2" then p_accessToken pair_B
  else if String.eqb text "R2" then p_refreshToken pair_B
  else Garbage text.

Definition bearer_request (text : string) : AuthenticatedRequest :=
  {| authorization := Some ("Bearer " +:+ text);
     req_user := None;
     req_deviceId := None;
     body_refreshToken := None |}.

(** Alice has logged in; the client will carry out the next two commands
    and reject the third. *)
Definition w_flaky_delete : World := set_faults [false; false; true] w_login.

(** A verification and another call in flight together: the verification
    sends its [GET], the other call runs one command, the verification
    sends its [SETEX]. *)
Definition touch_race_schedule : list bool := [true; false; true].


(** * Properties *)

(** ** Running composite programs *)

Lemma run_bind {A B} (p : Prog A) (f : A -> Prog B) (w : World) :
  run (bind p f) w =
  match run p w with
  | (Returned a, w') => run (f a) w'
  | (Thrown e, w') => (Thrown e, w')
  end.
Proof.
  revert w; induction p as [a|e|k IH|k IH|lvl msg k IH|k IH|key k IH|key ttl v k IH|key k IH];
    intros w; simpl; auto;
    destruct (next_fault w) as [[] w1]; auto.
Qed.

Lemma run_try_catch {A} (p : Prog A) (h : JsError -> Prog A) (w : World) :
  run (try_catch p h) w =
  match run p w with
  | (Returned a, w') => (Returned a, w')
  | (Thrown e, w') => run (h e) w'
  end.
Proof.
  revert w; induction p as [a|e|k IH|k IH|lvl msg k IH|k IH|key k IH|key ttl v k IH|key k IH];
    intros w; simpl; auto;
    destruct (next_fault w) as [[] w1]; auto.
Qed.

Lemma run_step {A} (p : Prog A) (w : World) :
  run p w = run (fst (step p w)) (snd (step p w)).
Proof.
  revert w; induction p as [a|e|k IH|k IH|lvl msg k IH|k IH|key k IH|key ttl v k IH|key k IH];
    intros w; simpl; auto;
    destruct (next_fault w) as [[] w1]; auto.
Qed.

(** ** The session methods of [RedisManager] *)

Lemma next_fault_frame w bad w1 :
  next_fault w = (bad, w1) -> same_but_faults w w1.
Proof.
  unfold next_fault, same_but_faults.
  destruct (faults w); intros [= <- <-]; cbn; auto 10.
Qed.

Lemma attempt_frame w e w1 : attempt w = (e, w1) -> same_but_faults w w1.
Proof.
  unfold attempt.
  destruct (isConnected w && client w).
  - destruct (next_fault w) as [bad w'] eqn:E. intros [= <- <-].
    eapply next_fault_frame; eauto.
  - intros [= <- <-]. unfold same_but_faults; auto 10.
Qed.

Lemma same_but_faults_get w w1 key :
  same_but_faults w w1 -> redis_get w1 key = redis_get w key.
Proof.
  intros (Hc & _ & _ & Hr & _). unfold redis_get. now rewrite Hc, Hr.
Qed.

Lemma run_getSession sid w :
  run (getSession sid) w =
  match attempt w with
  | (Some e, w1) => (Thrown e, w1)
  | (None, w1) => (Returned (redis_get w1 (session_key sid)), w1)
  end.
Proof.
  unfold getSession, attempt; simpl.
  destruct (isConnected w && client w); simpl; [|reflexivity].
  destruct (next_fault w) as [[] w1]; reflexivity.
Qed.

Lemma run_setSession sid data ttl w :
  run (setSession sid data ttl) w =
  match attempt w with
  | (Some e, w1) => (Thrown e, w1)
  | (None, w1) => (Returned tt, redis_setex (session_key sid) ttl data w1)
  end.
Proof.
  unfold setSession, attempt; simpl.
  destruct (isConnected w && client w); simpl; [|reflexivity].
  destruct (next_fault w) as [[] w1]; reflexivity.
Qed.

Lemma run_deleteSession sid w :
  run (deleteSession sid) w =
  match attempt w with
  | (Some e, w1) => (Thrown e, w1)
  | (None, w1) => (Returned tt, redis_del (session_key sid) w1)
  end.
Proof.
  unfold deleteSession, attempt; simpl.
  destruct (isConnected w && client w); simpl; [|reflexivity].
  destruct (next_fault w) as [[] w1]; reflexivity.
Qed.

Lemma attempt_available w : available w -> attempt w = (None, w).
Proof.
  intros (H1 & H2 & H3). unfold attempt, next_fault. now rewrite H1, H2, H3.
Qed.

Lemma available_getSession sid w :
  available w ->
  run (getSession sid) w = (Returned (redis_get w (session_key sid)), w).
Proof. intros H. now rewrite run_getSession, attempt_available. Qed.

Lemma available_setSession sid data ttl w :
  available w ->
  run (setSession sid data ttl) w =
  (Returned tt, redis_setex (session_key sid) ttl data w).
Proof. intros H. now rewrite run_setSession, attempt_available. Qed.

Lemma available_deleteSession sid w :
  available w ->
  run (deleteSession sid) w = (Returned tt, redis_del (session_key sid) w).
Proof. intros H. now rewrite run_deleteSession, attempt_available. Qed.

(** ** [jsonwebtoken] *)

Lemma run_jwt_verify_valid key claims w :
  unexpired claims w ->
  run (jwt_verify (Jwt key claims) key) w = (Returned claims, w).
Proof.
  intros H. unfold jwt_verify. rewrite String.eqb_refl. simpl.
  destruct (exp claims) as [d|] eqn:E; auto.
  specialize (H d E).
  destruct (Z.leb_spec d (clock w / 1000)); auto. lia.
Qed.

Lemma available_generateTokens config user device w :
  available w ->
  run (generateTokens config user device) w =
  let sid := uuids w (uuid_next w) in
  let w1 := set_uuid_next (S (uuid_next w)) w in
  (Returned
     {| accessToken :=
          Jwt (secret config)
            (stamp (access_payload user sid device) (clock w / 1000) (expiresIn config));
        refreshToken :=
          Jwt (secret config)
            (stamp (refresh_payload user sid) (clock w / 1000) (refreshExpiresIn config));
        b_sessionId := sid |},
   redis_setex (session_key sid) session_ttl
     (new_session user device (clock w) (clock w)) w1).
Proof.
  intros H. unfold generateTokens. cbn -[setSession session_ttl].
  rewrite run_bind, available_setSession; auto.
Qed.

Lemma redis_get_setex key ttl data w :
  0 < ttl ->
  redis_get (redis_setex key ttl data w) key = Some data.
Proof.
  intros H. unfold redis_get, redis_setex. simpl.
  rewrite lookup_insert_eq.
  destruct (Z.ltb_spec (clock w) (clock w + ttl * 1000)); auto. lia.
Qed.

Lemma available_verifyToken config key claims session w :
  available w ->
  key = secret config ->
  unexpired claims w ->
  redis_get w (session_key (sessionId claims)) = Some session ->
  run (verifyToken config (Jwt key claims)) w =
  (Returned (Granted claims),
   redis_setex (session_key (sessionId claims)) session_ttl
     (touch session (clock w)) w).
Proof.
  intros Hw -> Hexp Hget. unfold verifyToken.
  rewrite run_try_catch, run_bind, run_jwt_verify_valid by assumption.
  rewrite run_bind, available_getSession, Hget by assumption.
  cbn -[setSession session_ttl].
  rewrite run_bind, available_setSession by assumption.
  reflexivity.
Qed.


Lemma run_generateTokens config user device w :
  run (generateTokens config user device) w =
  let sid := uuids w (uuid_next w) in
  match attempt (set_uuid_next (S (uuid_next w)) w) with
  | (Some e, w1) => (Thrown e, w1)
  | (None, w1) =>
      (Returned
         {| accessToken :=
              Jwt (secret config)
                (stamp (access_payload user sid device) (clock w / 1000)
                   (expiresIn config));
            refreshToken :=
              Jwt (secret config)
                (stamp (refresh_payload user sid) (clock w / 1000)
                   (refreshExpiresIn config));
            b_sessionId := sid |},
       redis_setex (session_key sid) session_ttl
         (new_session user device (clock w) (clock w)) w1)
  end.
Proof.
  unfold generateTokens. cbn -[setSession session_ttl attempt].
  rewrite run_bind, run_setSession.
  destruct (attempt _) as [[e|] w1]; reflexivity.
Qed.

(** ** [verifyToken] *)

(** [verifyToken] never throws: it returns a payload or [null]. *)
Lemma verifyToken_returns config token w :
  exists o w', run (verifyToken config token) w = (Returned o, w').
Proof.
  unfold verifyToken. rewrite run_try_catch, run_bind.
  destruct (run (jwt_verify token (secret config)) w) as [[decoded|e] w1].
  - rewrite run_bind, run_getSession.
    destruct (attempt w1) as [[e|] w2].
    + destruct e; cbn; eauto.
    + destruct (redis_get w2 _) as [session|]; [|cbn; eauto].
      cbn -[setSession session_ttl]. rewrite run_bind, run_setSession.
      destruct (attempt w2) as [[e|] w3]; [destruct e|]; cbn; eauto.
  - destruct e; cbn; eauto.
Qed.

Lemma run_jwt_verify_frame token key w r w1 :
  run (jwt_verify token key) w = (r, w1) -> w1 = w.
Proof.
  unfold jwt_verify. destruct token as [|signer claims]; [now intros [= _ <-]|].
  destruct (String.eqb signer key); [|now intros [= _ <-]].
  cbn. destruct (exp claims) as [d|]; [destruct (d <=? clock w / 1000)|];
    now intros [= _ <-].
Qed.

Lemma run_jwt_verify_payload key signer claims w decoded w1 :
  run (jwt_verify (Jwt signer claims) key) w = (Returned decoded, w1) ->
  decoded = claims /\ signer = key /\ unexpired claims w.
Proof.
  unfold jwt_verify, unexpired.
  destruct (String.eqb_spec signer key) as [->|]; [|discriminate].
  cbn. destruct (exp claims) as [d|].
  - destruct (Z.leb_spec d (clock w / 1000)); [discriminate|].
    intros [= <- <-]. repeat split; auto. intros ? [= <-]; auto.
  - intros [= <- <-]. repeat split; auto. discriminate.
Qed.

(** A token that names a session absent from the store is refused, and the
    store is left as it was. *)
Lemma verifyToken_session_absent config signer claims w :
  redis_get w (session_key (sessionId claims)) = None ->
  exists why w',
    run (verifyToken config (Jwt signer claims)) w = (Returned (Null why), w') /\
    redis w' = redis w.
Proof.
  intros Habsent. unfold verifyToken. rewrite run_try_catch, run_bind.
  destruct (run (jwt_verify _ _) w) as [[decoded|e] w1] eqn:Hv.
  - pose proof (run_jwt_verify_frame _ _ _ _ _ Hv) as ->.
    apply run_jwt_verify_payload in Hv as (-> & _ & _).
    rewrite run_bind, run_getSession.
    destruct (attempt w) as [[e|] w2] eqn:Ha;
      pose proof (attempt_frame _ _ _ Ha) as Hf.
    + destruct e; cbn; do 2 eexists; split; try reflexivity; apply Hf.
    + rewrite (same_but_faults_get _ _ _ Hf), Habsent. cbn.
      do 2 eexists; split; try reflexivity; apply Hf.
  - pose proof (run_jwt_verify_frame _ _ _ _ _ Hv) as ->.
    destruct e; cbn; do 2 eexists; split; reflexivity.
Qed.

Lemma verifyToken_session_not_found config claims w :
  available w ->
  unexpired claims w ->
  redis_get w (session_key (sessionId claims)) = None ->
  run (verifyToken config (Jwt (secret config) claims)) w =
  (Returned (Null SessionNotFound),
   add_log LWarn ("Session not found for token: " +:+ sessionId claims) w).
Proof.
  intros Hw Hexp Habsent. unfold verifyToken.
  rewrite run_try_catch, run_bind, run_jwt_verify_valid by assumption.
  rewrite run_bind, available_getSession, Habsent by assumption.
  reflexivity.
Qed.

Lemma redis_get_absent w key : redis w !! key = None -> redis_get w key = None.
Proof. intros H. unfold redis_get. now rewrite H. Qed.


(** ** [refreshTokens] *)

(** What a successful rotation has done: the token was signed with the
    secret and not expired, its session was in the store under the same
    user, the new access token is signed over the claims of
    [session_user], and the old session is gone. *)
Lemma refreshTokens_granted config token w pair w' :
  run (refreshTokens config token) w = (Returned (Granted pair), w') ->
  exists claims session,
    token = Jwt (secret config) claims /\
    unexpired claims w /\
    redis_get w (session_key (sessionId claims)) = Some session /\
    s_userId session = userId claims /\
    p_accessToken pair =
      Jwt (secret config)
        (stamp (access_payload (session_user session) (uuids w (uuid_next w))
                  (s_deviceId session))
           (clock w / 1000) (expiresIn config)) /\
    redis w' !! session_key (sessionId claims) = None.
Proof.
  unfold refreshTokens. rewrite run_try_catch, run_bind.
  destruct (run (jwt_verify _ _) w) as [[decoded|e] w1] eqn:Hv;
    pose proof (run_jwt_verify_frame _ _ _ _ _ Hv) as ->; [|discriminate].
  destruct token as [|signer claims]; [discriminate|].
  apply run_jwt_verify_payload in Hv as (-> & -> & Hexp).
  rewrite run_bind, run_getSession.
  destruct (attempt w) as [[e|] w2] eqn:Ha; [discriminate|].
  pose proof (attempt_frame _ _ _ Ha) as Hf.
  rewrite (same_but_faults_get _ _ _ Hf).
  destruct (redis_get w _) as [session|] eqn:Hget; [|discriminate].
  destruct (String.eqb_spec (s_userId session) (userId claims)) as [Hu|];
    [|discriminate].
  cbn [negb]. rewrite run_bind, run_generateTokens. cbn zeta.
  destruct (attempt (set_uuid_next _ w2)) as [[e|] w3] eqn:Ha3; [discriminate|].
  rewrite run_bind, run_deleteSession.
  destruct (attempt (redis_setex _ _ _ w3)) as [[e|] w4] eqn:Ha4; [discriminate|].
  intros [= <- <-].
  exists claims, session. repeat split; auto.
  - cbn [p_accessToken accessToken].
    destruct Hf as (Hc & _ & _ & _ & Hus & Hun & _). now rewrite Hc, Hus, Hun.
  - cbn. apply lookup_delete_eq.
Qed.

(** Presenting a refresh token whose session is absent from the store
    fails and writes nothing. *)
Lemma refreshTokens_session_absent config signer claims w :
  redis_get w (session_key (sessionId claims)) = None ->
  exists why w',
    run (refreshTokens config (Jwt signer claims)) w = (Returned (Null why), w') /\
    why <> GenerationMismatch /\
    redis w' = redis w.
Proof.
  intros Habsent. unfold refreshTokens. rewrite run_try_catch, run_bind.
  destruct (run (jwt_verify _ _) w) as [[decoded|e] w1] eqn:Hv;
    pose proof (run_jwt_verify_frame _ _ _ _ _ Hv) as ->.
  - apply run_jwt_verify_payload in Hv as (-> & _ & _).
    rewrite run_bind, run_getSession.
    destruct (attempt w) as [[e|] w2] eqn:Ha;
      pose proof (attempt_frame _ _ _ Ha) as Hf.
    + cbn. do 2 eexists; repeat split; [destruct e; discriminate | apply Hf].
    + rewrite (same_but_faults_get _ _ _ Hf), Habsent. cbn.
      do 2 eexists; repeat split; [discriminate | apply Hf].
  - cbn. do 2 eexists; repeat split; destruct e; discriminate.
Qed.

Lemma refreshTokens_session_not_found config claims w :
  available w ->
  unexpired claims w ->
  redis_get w (session_key (sessionId claims)) = None ->
  run (refreshTokens config (Jwt (secret config) claims)) w =
  (Returned (Null SessionNotFound), w).
Proof.
  intros Hw Hexp Habsent. unfold refreshTokens.
  rewrite run_try_catch, run_bind, run_jwt_verify_valid by assumption.
  rewrite run_bind, available_getSession, Habsent by assumption.
  reflexivity.
Qed.

(** ** Only bare records reach the store *)

Lemma writes_bare_bind {A B} (p : Prog A) (f : A -> Prog B) :
  writes_bare p -> (forall a, writes_bare (f a)) -> writes_bare (bind p f).
Proof.
  intros Hp Hf.
  induction p as [a|e|k IH|k IH|lvl msg k IH|k IH|key k IH|key ttl v k IH|key k IH];
    cbn in *; auto.
  - destruct Hp as (H1 & H2 & H3). repeat split; auto.
  - destruct Hp as (H1 & H2). split; auto.
Qed.

Lemma writes_bare_try_catch {A} (p : Prog A) (h : JsError -> Prog A) :
  writes_bare p -> (forall e, writes_bare (h e)) -> writes_bare (try_catch p h).
Proof.
  intros Hp Hh.
  induction p as [a|e|k IH|k IH|lvl msg k IH|k IH|key k IH|key ttl v k IH|key k IH];
    cbn in *; auto.
  - destruct Hp as (H1 & H2 & H3). repeat split; auto.
  - destruct Hp as (H1 & H2). split; auto.
Qed.

Lemma bare_store_next_fault w bad w1 :
  next_fault w = (bad, w1) -> bare_store w -> bare_store w1.
Proof.
  intros H Hw. apply next_fault_frame in H as (_ & _ & _ & Hr & _).
  unfold bare_store. now rewrite Hr.
Qed.

Lemma bare_store_get w key s :
  bare_store w -> redis_get w key = Some s -> bare s.
Proof.
  unfold bare_store, redis_get. intros Hw.
  destruct (redis w !! key) as [[d v]|] eqn:E; [|discriminate].
  destruct (clock w <? d); [|discriminate]. intros [= <-]. eauto.
Qed.

Lemma bare_store_setex key ttl v w :
  bare v -> bare_store w -> bare_store (redis_setex key ttl v w).
Proof.
  intros Hv Hw k d s. cbn. rewrite lookup_insert.
  destruct (decide (key = k)); [intros [= <- <-]; auto | apply Hw].
Qed.

Lemma bare_store_del key w : bare_store w -> bare_store (redis_del key w).
Proof.
  intros Hw k d s. cbn. rewrite lookup_delete.
  destruct (decide (key = k)); [discriminate | apply Hw].
Qed.

Lemma writes_bare_run {A} (p : Prog A) (w : World) :
  writes_bare p -> bare_store w -> bare_store (snd (run p w)).
Proof.
  revert w.
  induction p as [a|e|k IH|k IH|lvl msg k IH|k IH|key k IH|key ttl v k IH|key k IH];
    intros w Hp Hw; cbn in *; auto.
  - destruct Hp as (H1 & H2 & H3).
    destruct (next_fault w) as [[] w1] eqn:E;
      pose proof (bare_store_next_fault _ _ _ E Hw) as Hw1; auto.
    destruct (redis_get w1 key) as [s|] eqn:G; auto.
    apply IH; auto. apply H3. eapply bare_store_get; eauto.
  - destruct Hp as (H1 & H2).
    destruct (next_fault w) as [[] w1] eqn:E;
      pose proof (bare_store_next_fault _ _ _ E Hw) as Hw1; auto.
    apply IH; auto. apply bare_store_setex; auto.
  - destruct (next_fault w) as [[] w1] eqn:E;
      pose proof (bare_store_next_fault _ _ _ E Hw) as Hw1; auto.
    apply IH; auto. apply bare_store_del; auto.
Qed.

Lemma writes_bare_setSession sid data ttl :
  bare data -> writes_bare (setSession sid data ttl).
Proof. intros H [] ; cbn; auto. split; auto. intros []; cbn; auto. Qed.

Lemma writes_bare_deleteSession sid : writes_bare (deleteSession sid).
Proof. intros []; cbn; auto. intros []; cbn; auto. Qed.

Lemma writes_bare_jwt_verify token key : writes_bare (jwt_verify token key).
Proof.
  destruct token as [|signer claims]; cbn; auto.
  destruct (String.eqb signer key); cbn; auto.
  intros t. destruct (exp claims) as [d|]; cbn; auto.
  destruct (d <=? t / 1000); cbn; auto.
Qed.

Lemma bare_new_session user device created active :
  bare (new_session user device created active).
Proof. repeat split. Qed.

Lemma bare_touch session now : bare session -> bare (touch session now).
Proof. intros (H1 & H2 & H3 & H4). repeat split; auto. Qed.

Lemma writes_bare_generateTokens config user device :
  writes_bare (generateTokens config user device).
Proof.
  unfold generateTokens. intros sid. cbn -[setSession].
  intros signed_at signed_at' created active. apply writes_bare_bind; [|cbn; auto].
  apply writes_bare_setSession, bare_new_session.
Qed.

Lemma writes_bare_verifyToken config token :
  writes_bare (verifyToken config token).
Proof.
  unfold verifyToken. apply writes_bare_try_catch.
  - apply writes_bare_bind; [apply writes_bare_jwt_verify|]. intros decoded.
    intros []; cbn -[setSession]; auto. repeat split.
    intros s Hs now. apply writes_bare_bind; [|cbn; auto].
    apply writes_bare_setSession, bare_touch, Hs.
  - intros []; cbn; auto.
Qed.

Lemma writes_bare_refreshTokens config token :
  writes_bare (refreshTokens config token).
Proof.
  unfold refreshTokens. apply writes_bare_try_catch; [|cbn; auto].
  apply writes_bare_bind; [apply writes_bare_jwt_verify|]. intros decoded.
  intros []; cbn -[generateTokens deleteSession]; auto. repeat split.
  intros s Hs. destruct (negb _); [cbn; auto|].
  apply writes_bare_bind; [apply writes_bare_generateTokens|]. intros tokens.
  apply writes_bare_bind; [apply writes_bare_deleteSession|]. cbn; auto.
Qed.

Lemma perform_bare config c w : bare_store w -> bare_store (perform config c w).
Proof.
  destruct c; cbn [perform]; apply writes_bare_run.
  - apply writes_bare_generateTokens.
  - apply writes_bare_verifyToken.
  - apply writes_bare_refreshTokens.
  - apply writes_bare_deleteSession.
  - cbn; auto.
Qed.

Lemma reachable_bare config w : reachable config w -> bare_store w.
Proof.
  induction 1 as [w H|w c _ IH|w w' _ IH H].
  - intros key d s. rewrite H, lookup_empty. discriminate.
  - now apply perform_bare.
  - unfold bare_store. now rewrite H.
Qed.

Lemma available_refreshTokens config claims session w :
  available w ->
  unexpired claims w ->
  redis_get w (session_key (sessionId claims)) = Some session ->
  s_userId session = userId claims ->
  run (refreshTokens config (Jwt (secret config) claims)) w =
  let sid := uuids w (uuid_next w) in
  let user := session_user session in
  (Returned (Granted
     {| p_accessToken :=
          Jwt (secret config)
            (stamp (access_payload user sid (s_deviceId session)) (clock w / 1000)
               (expiresIn config));
        p_refreshToken :=
          Jwt (secret config)
            (stamp (refresh_payload user sid) (clock w / 1000)
               (refreshExpiresIn config)) |}),
   redis_del (session_key (sessionId claims))
     (redis_setex (session_key sid) session_ttl
        (new_session user (s_deviceId session) (clock w) (clock w))
        (set_uuid_next (S (uuid_next w)) w))).
Proof.
  intros Hw Hexp Hget Huser. unfold refreshTokens.
  rewrite run_try_catch, run_bind, run_jwt_verify_valid by assumption.
  rewrite run_bind, available_getSession, Hget by assumption.
  cbv beta iota. rewrite Huser, String.eqb_refl. cbn [negb]. cbv beta iota zeta.
  rewrite run_bind, available_generateTokens by assumption. cbv beta iota zeta.
  rewrite run_bind, available_deleteSession; [reflexivity|].
  destruct Hw as (H1 & H2 & H3). repeat split; assumption.
Qed.


(** * The claims *)

(** C1, as stated, fails: Alice's refresh token R1, presented again after
    its rotation, is refused because its session is no longer found, not
    for a generation mismatch; and the replay revokes nothing: the access
    token of the new pair is still accepted afterwards. *)
Lemma replay_counterexample :
  fst (run (refreshTokens default_config (refreshToken pair_A)) w_rotated) =
    Returned (Null SessionNotFound) /\
  fst (run (refreshTokens default_config (refreshToken pair_A)) w_rotated) <>
    Returned (Null GenerationMismatch) /\
  js_value (returned (Null TokenInvalid)
    (fst (run (verifyToken default_config (p_accessToken pair_B))
            (snd (run (refreshTokens default_config (refreshToken pair_A)) w_rotated)))))
  <> None.
Proof.
  split; [vm_compute; reflexivity|].
  split; vm_compute; discriminate.
Qed.

(** C1, amended: the source keeps no generation counter; a successful
    rotation deletes the session of the token it consumed.  After
    [refreshTokens] has succeeded on a token, and as long as nothing else
    has written to the store, presenting the same token again returns
    [null], never for a generation mismatch, and leaves the store as it is
    (no session is revoked by the replay); when the token has not expired
    and the client is available, the failure is [SessionNotFound]. *)
Theorem replayed_refresh_token_fails (config : Config) (token : Token)
    (pair : TokenPair) (w w1 w2 : World) :
  run (refreshTokens config token) w = (Returned (Granted pair), w1) ->
  redis w2 = redis w1 ->
  (exists why w3,
     run (refreshTokens config token) w2 = (Returned (Null why), w3) /\
     why <> GenerationMismatch /\
     redis w3 = redis w2) /\
  (available w2 ->
   (forall signer claims, token = Jwt signer claims -> unexpired claims w2) ->
   run (refreshTokens config token) w2 = (Returned (Null SessionNotFound), w2)).
Proof.
  intros Hrotate Hsame.
  apply refreshTokens_granted in Hrotate
    as (claims & session & -> & _ & _ & _ & _ & Hgone).
  assert (Habsent : redis_get w2 (session_key (sessionId claims)) = None).
  { apply redis_get_absent. now rewrite Hsame. }
  split.
  - now apply refreshTokens_session_absent.
  - intros Hw Hexp. apply refreshTokens_session_not_found; eauto.
Qed.

Lemma replayed_refresh_token_fails_witness :
  (exists why w3,
     run (refreshTokens default_config (refreshToken pair_A)) w_rotated =
       (Returned (Null why), w3) /\
     why <> GenerationMismatch /\
     redis w3 = redis w_rotated) /\
  run (refreshTokens default_config (refreshToken pair_A)) w_rotated =
    (Returned (Null SessionNotFound), w_rotated).
Proof.
  destruct (replayed_refresh_token_fails default_config (refreshToken pair_A)
              pair_B w_login w_rotated w_rotated) as [H1 H2].
  - reflexivity.
  - reflexivity.
  - split; [exact H1|]. apply H2.
    + repeat split.
    + intros signer claims [= <- <-] d [= <-]. vm_compute. reflexivity.
Defined.

(** C2, as stated, fails: Alice's refresh token, handed to [verifyToken]
    right after her login, is accepted; the answer is its payload, not a
    [TokenKindMismatch] failure. *)
Lemma verify_refresh_token_counterexample :
  fst (run (verifyToken default_config (refreshToken pair_A)) w_login) =
    Returned (Granted
      {| userId := "u1"; email := None; username := None; isHost := None;
         isVerified := None; sessionId := "s0"; deviceId := None;
         iat := Some 1000; exp := Some 605800 |}) /\
  fst (run (verifyToken default_config (refreshToken pair_A)) w_login) <>
    Returned (Null TokenKindMismatch).
Proof. split; [vm_compute; reflexivity | vm_compute; discriminate]. Qed.

(** C2, amended: tokens carry no kind discriminator.  On a world whose
    Redis client is available, and with a positive refresh-token lifetime,
    [verifyToken] on the refresh token of a bundle just issued succeeds
    and returns the payload of the refresh token: the user and session
    identifiers of the bundle, and none of the four identity claims. *)
Theorem verify_accepts_refresh_token (config : Config) (user : User)
    (device : option string) (w : World) :
  available w ->
  0 < refreshExpiresIn config ->
  exists bundle w1 claims w2,
    run (generateTokens config user device) w = (Returned bundle, w1) /\
    run (verifyToken config (refreshToken bundle)) w1 =
      (Returned (Granted claims), w2) /\
    refreshToken bundle = Jwt (secret config) claims /\
    userId claims = id user /\
    sessionId claims = b_sessionId bundle /\
    email claims = None /\ username claims = None /\
    isHost claims = None /\ isVerified claims = None.
Proof.
  intros Hw Hpos.
  rewrite available_generateTokens by assumption. cbn zeta.
  do 4 eexists. split; [reflexivity|].
  cbn [refreshToken]. split; [|repeat split].
  eapply available_verifyToken.
  - exact Hw.
  - reflexivity.
  - intros d Hd. cbn in Hd |- *. injection Hd as <-. lia.
  - cbn [sessionId stamp refresh_payload]. apply redis_get_setex. reflexivity.
Qed.

Lemma verify_accepts_refresh_token_witness :
  exists bundle w1 claims w2,
    run (generateTokens default_config alice (Some "phone")) w0 = (Returned bundle, w1) /\
    run (verifyToken default_config (refreshToken bundle)) w1 =
      (Returned (Granted claims), w2) /\
    refreshToken bundle = Jwt (secret default_config) claims /\
    userId claims = id alice /\
    sessionId claims = b_sessionId bundle /\
    email claims = None /\ username claims = None /\
    isHost claims = None /\ isVerified claims = None.
Proof.
  apply (verify_accepts_refresh_token default_config alice (Some "phone") w0).
  - repeat split.
  - reflexivity.
Defined.

(** C3, as stated, fails: after the rotation of R1, Alice's first access
    token A1, which has not expired, is refused. *)
Lemma old_access_token_counterexample :
  unexpired (stamp (access_payload alice "s0" (Some "phone")) 1000 3600) w_rotated /\
  accessToken pair_A =
    Jwt (secret default_config)
      (stamp (access_payload alice "s0" (Some "phone")) 1000 3600) /\
  fst (run (verifyToken default_config (accessToken pair_A)) w_rotated) =
    Returned (Null SessionNotFound).
Proof.
  split; [intros d [= <-]; vm_compute; reflexivity|].
  split; vm_compute; reflexivity.
Qed.

(** C3, amended: rotation deletes the session it consumed, so the access
    tokens of that session stop verifying at once.  After [refreshTokens]
    has succeeded on a refresh token, and as long as nothing else has
    written to the store, [verifyToken] returns [null] for every token
    that names the session of that refresh token; when the token is signed
    with the secret and not expired and the client is available, the
    failure is [SessionNotFound]. *)
Theorem rotation_invalidates_old_access_token (config : Config)
    (signerR signerA : string) (claimsR claimsA : JWTPayload)
    (pair : TokenPair) (w w1 w2 : World) :
  run (refreshTokens config (Jwt signerR claimsR)) w = (Returned (Granted pair), w1) ->
  sessionId claimsA = sessionId claimsR ->
  redis w2 = redis w1 ->
  (exists why w3,
     run (verifyToken config (Jwt signerA claimsA)) w2 = (Returned (Null why), w3)) /\
  (available w2 -> signerA = secret config -> unexpired claimsA w2 ->
   run (verifyToken config (Jwt signerA claimsA)) w2 =
     (Returned (Null SessionNotFound),
      add_log LWarn ("Session not found for token: " +:+ sessionId claimsA) w2)).
Proof.
  intros Hrotate Hsid Hsame.
  apply refreshTokens_granted in Hrotate
    as (claims & session & [= _ <-] & _ & _ & _ & _ & Hgone).
  assert (Habsent : redis_get w2 (session_key (sessionId claimsA)) = None).
  { apply redis_get_absent. now rewrite Hsid, Hsame. }
  split.
  - destruct (verifyToken_session_absent config signerA claimsA w2 Habsent)
      as (why & w3 & H & _). eauto.
  - intros Hw -> Hexp. now apply verifyToken_session_not_found.
Qed.

Lemma rotation_invalidates_old_access_token_witness :
  (exists why w3,
     run (verifyToken default_config (accessToken pair_A)) w_rotated =
       (Returned (Null why), w3)) /\
  run (verifyToken default_config (accessToken pair_A)) w_rotated =
    (Returned (Null SessionNotFound),
     add_log LWarn ("Session not found for token: " +:+ "s0") w_rotated).
Proof.
  destruct (rotation_invalidates_old_access_token default_config
              (secret default_config) (secret default_config)
              (stamp (refresh_payload alice "s0") 1000 604800)
              (stamp (access_payload alice "s0" (Some "phone")) 1000 3600)
              pair_B w_login w_rotated w_rotated) as [H1 H2].
  - reflexivity.
  - reflexivity.
  - reflexivity.
  - split; [exact H1|]. apply H2.
    + repeat split.
    + reflexivity.
    + intros d [= <-]. vm_compute. reflexivity.
Defined.

(** C4: on a world whose Redis client is available, and with a positive
    access-token lifetime, [generateTokens] returns a bundle, and
    [verifyToken] on its access token, run right after, returns the payload
    of that token, whose [userId] is the [id] of the user the tokens were
    issued for. *)
Theorem issue_then_verify_returns_user (config : Config) (user : User) (device : option string) (w : World) :
  available w ->
  0 < expiresIn config ->
  exists bundle w1 claims w2,
    run (generateTokens config user device) w = (Returned bundle, w1) /\
    run (verifyToken config (accessToken bundle)) w1 = (Returned (Granted claims), w2) /\
    userId claims = id user.
Proof.
  intros Hw Hpos.
  rewrite available_generateTokens by assumption. cbn zeta.
  do 4 eexists. split; [reflexivity|].
  cbn [accessToken]. split.
  - eapply available_verifyToken.
    + exact Hw.
    + reflexivity.
    + intros d Hd. cbn in Hd |- *. injection Hd as <-. lia.
    + cbn [sessionId stamp access_payload]. apply redis_get_setex. reflexivity.
  - reflexivity.
Qed.

Lemma issue_then_verify_witness :
  exists bundle w1 claims w2,
    run (generateTokens default_config alice (Some "phone")) w0 = (Returned bundle, w1) /\
    run (verifyToken default_config (accessToken bundle)) w1 =
      (Returned (Granted claims), w2) /\
    userId claims = id alice.
Proof.
  apply (issue_then_verify_returns_user default_config alice (Some "phone") w0).
  - repeat split.
  - reflexivity.
Defined.




(** C6, as stated, fails: Alice's access token is valid and her session is
    in the store, the read of the session goes through, the write of
    [lastActivity] is rejected by the client, and [verifyToken] returns
    [null]. *)
Lemma activity_write_counterexample :
  redis_get w_flaky (session_key "s0") =
    Some (new_session alice (Some "phone") 1000000 1000000) /\
  fst (run (verifyToken default_config (accessToken pair_A)) w_flaky) =
    Returned (Null StoreUnavailable) /\
  js_value (returned (Null TokenInvalid)
    (fst (run (verifyToken default_config (accessToken pair_A)) w_flaky))) = None.
Proof. repeat split; vm_compute; reflexivity. Qed.

(** C6, amended: the write of [lastActivity] is awaited inside the [try]
    block, so the request stands or falls with it.  For a token signed
    with the secret and not expired, whose session is in the store, on a
    connected client that carries out the read of the session:
    [verifyToken] returns the token's claims when the write that follows
    is carried out, and [null] when that write is rejected. *)
Theorem verify_stands_or_falls_with_activity_write (config : Config)
    (claims : JWTPayload) (session : Session) (w : World) :
  isConnected w = true ->
  client w = true ->
  nth 0 (faults w) false = false ->
  unexpired claims w ->
  redis_get w (session_key (sessionId claims)) = Some session ->
  fst (run (verifyToken config (Jwt (secret config) claims)) w) =
    if nth 1 (faults w) false
    then Returned (Null StoreUnavailable)
    else Returned (Granted claims).
Proof.
  intros Hc Hcl Hread Hexp Hget. unfold verifyToken.
  rewrite run_try_catch, run_bind, run_jwt_verify_valid by assumption.
  rewrite run_bind, run_getSession.
  destruct (attempt w) as [r w1] eqn:Ha.
  pose proof (attempt_frame _ _ _ Ha) as Hf.
  assert (Hr : r = None /\ faults w1 = tl (faults w)).
  { revert Ha. unfold attempt, next_fault. rewrite Hc, Hcl. cbn.
    destruct (faults w) as [|b rest] eqn:E; cbn in Hread; [|subst b];
      intros [= <- <-]; rewrite ?E; auto. }
  destruct Hr as [-> Hfaults].
  rewrite (same_but_faults_get _ _ _ Hf), Hget.
  cbn -[setSession session_ttl]. rewrite run_bind, run_setSession.
  destruct Hf as (_ & Hcl1 & Hc1 & _).
  unfold attempt, next_fault. rewrite Hc1, Hcl1, Hc, Hcl, Hfaults. cbn.
  destruct (faults w) as [|b [|[] rest]]; reflexivity.
Qed.

Lemma verify_stands_or_falls_with_activity_write_witness :
  fst (run (verifyToken default_config
              (Jwt (secret default_config)
                 (stamp (access_payload alice "s0" (Some "phone")) 1000 3600)))
         w_flaky) =
  if nth 1 (faults w_flaky) false
  then Returned (Null StoreUnavailable)
  else Returned (Granted (stamp (access_payload alice "s0" (Some "phone")) 1000 3600)).
Proof.
  apply (verify_stands_or_falls_with_activity_write default_config
           (stamp (access_payload alice "s0" (Some "phone")) 1000 3600)
           (new_session alice (Some "phone") 1000000 1000000) w_flaky).
  - reflexivity.
  - reflexivity.
  - reflexivity.
  - intros d [= <-]. vm_compute. reflexivity.
  - vm_compute. reflexivity.
Defined.




(** C8: [revokeAllUserSessions] returns after writing one line to the log;
    the Redis database, and everything else in the world, is as it was. *)
Theorem revokeAllUserSessions_only_logs (uid : string) (w : World) :
  run (revokeAllUserSessions uid) w =
    (Returned tt, add_log LInfo ("Revoking all sessions for user: " +:+ uid) w) /\
  redis (snd (run (revokeAllUserSessions uid) w)) = redis w.
Proof. split; reflexivity. Qed.

(** C9: on every world the service can reach, the access token of a
    successful rotation carries [email = ''], [username = ''],
    [isHost = false] and [isVerified = false]: the session record the
    claims are rebuilt from holds none of the four. *)
Theorem rotation_resets_identity_claims (config : Config) (token : Token)
    (pair : TokenPair) (w w' : World) :
  reachable config w ->
  run (refreshTokens config token) w = (Returned (Granted pair), w') ->
  exists claims,
    p_accessToken pair = Jwt (secret config) claims /\
    email claims = Some "" /\
    username claims = Some "" /\
    isHost claims = Some false /\
    isVerified claims = Some false.
Proof.
  intros Hreach Hrotate.
  apply reachable_bare in Hreach.
  apply refreshTokens_granted in Hrotate
    as (claims & session & _ & _ & Hget & _ & Haccess & _).
  destruct (bare_store_get _ _ _ Hreach Hget) as (He & Hu & Hh & Hv).
  eexists. split; [exact Haccess|].
  cbn. now rewrite He, Hu, Hh, Hv.
Qed.

Lemma rotation_resets_identity_claims_witness :
  exists claims,
    p_accessToken pair_B = Jwt (secret default_config) claims /\
    email claims = Some "" /\
    username claims = Some "" /\
    isHost claims = Some false /\
    isVerified claims = Some false.
Proof.
  apply (rotation_resets_identity_claims default_config (refreshToken pair_A)
           pair_B w_login w_rotated).
  - apply (reach_call default_config w0 (CallGenerateTokens alice (Some "phone"))).
    apply reach_start. reflexivity.
  - reflexivity.
Defined.

(** C10: a refresh token that names a session stored under another user
    gets no tokens: [refreshTokens] returns [null] and writes nothing to
    the store, whatever the state of the client; when the token is signed
    with the secret and not expired and the client is available, the
    refusal comes from the comparison of the two user identifiers. *)
Theorem refresh_refuses_foreign_session (config : Config) (signer : string)
    (claims : JWTPayload) (session : Session) (w : World) :
  redis_get w (session_key (sessionId claims)) = Some session ->
  s_userId session <> userId claims ->
  (exists why w',
     run (refreshTokens config (Jwt signer claims)) w = (Returned (Null why), w') /\
     redis w' = redis w) /\
  (available w -> signer = secret config -> unexpired claims w ->
   run (refreshTokens config (Jwt signer claims)) w =
     (Returned (Null SessionUserMismatch), w)).
Proof.
  intros Hget Hforeign.
  assert (Hneq : negb (String.eqb (s_userId session) (userId claims)) = true).
  { destruct (String.eqb_spec (s_userId session) (userId claims)); cbn; congruence. }
  split.
  - unfold refreshTokens. rewrite run_try_catch, run_bind.
    destruct (run (jwt_verify _ _) w) as [[decoded|e] w1] eqn:Hv;
      pose proof (run_jwt_verify_frame _ _ _ _ _ Hv) as ->.
    + apply run_jwt_verify_payload in Hv as (-> & _ & _).
      rewrite run_bind, run_getSession.
      destruct (attempt w) as [[e|] w2] eqn:Ha;
        pose proof (attempt_frame _ _ _ Ha) as Hf.
      * cbn. do 2 eexists; split; [reflexivity | apply Hf].
      * rewrite (same_but_faults_get _ _ _ Hf), Hget, Hneq. cbn.
        do 2 eexists; split; [reflexivity | apply Hf].
    + cbn. do 2 eexists; split; reflexivity.
  - intros Hw -> Hexp. unfold refreshTokens.
    rewrite run_try_catch, run_bind, run_jwt_verify_valid by assumption.
    rewrite run_bind, available_getSession, Hget, Hneq by assumption.
    reflexivity.
Qed.

Lemma refresh_refuses_foreign_session_witness :
  (exists why w',
     run (refreshTokens default_config forged_refresh) w_login =
       (Returned (Null why), w') /\
     redis w' = redis w_login) /\
  run (refreshTokens default_config forged_refresh) w_login =
    (Returned (Null SessionUserMismatch), w_login).
Proof.
  destruct (refresh_refuses_foreign_session default_config (secret default_config)
              (stamp (refresh_payload mallory "s0") 1000 604800)
              (new_session alice (Some "phone") 1000000 1000000) w_login)
    as [H1 H2].
  - vm_compute. reflexivity.
  - discriminate.
  - split; [exact H1|]. apply H2.
    + repeat split.
    + reflexivity.
    + intros d [= <-]. vm_compute. reflexivity.
Defined.

(** * Further properties *)

(** ** Issuing *)

(** [generateTokens] returns a bundle only once the session record is
    written: when it returns, the bundle carries the identifier drawn from
    [randomUUID], both tokens are signed with the secret over that
    identifier and the user, and the store differs from the one before by
    that one session, kept for seven days; when it throws, the store is as
    it was. *)
Theorem generateTokens_returns_only_with_stored_session (config : Config)
    (user : User) (device : option string) (w : World) :
  let sid := uuids w (uuid_next w) in
  match run (generateTokens config user device) w with
  | (Returned bundle, w') =>
      bundle =
        {| accessToken :=
             Jwt (secret config)
               (stamp (access_payload user sid device) (clock w / 1000)
                  (expiresIn config));
           refreshToken :=
             Jwt (secret config)
               (stamp (refresh_payload user sid) (clock w / 1000)
                  (refreshExpiresIn config));
           b_sessionId := sid |} /\
      redis w' =
        <[session_key sid :=
            (clock w + 604800000, new_session user device (clock w) (clock w))]>
          (redis w) /\
      redis_get w' (session_key sid) =
        Some (new_session user device (clock w) (clock w))
  | (Thrown e, w') => redis w' = redis w
  end.
Proof.
  cbn zeta. rewrite run_generateTokens. cbn zeta.
  destruct (attempt _) as [[e|] w1] eqn:Ha;
    apply attempt_frame in Ha as (Hc & _ & _ & Hr & _); cbn in Hc, Hr.
  - exact Hr.
  - split; [reflexivity|]. split.
    + cbn. now rewrite Hr, Hc.
    + unfold redis_get, redis_setex. cbn. rewrite lookup_insert_eq.
      destruct (Z.ltb_spec (clock w1) (clock w1 + session_ttl * 1000)); auto.
      unfold session_ttl in *. lia.
Qed.

(** ** Verifying *)

Lemma run_verifyToken_cases config token w o w' :
  run (verifyToken config token) w = (o, w') ->
  (exists why, o = Returned (Null why) /\ redis w' = redis w) \/
  (exists claims session,
     o = Returned (Granted claims) /\
     token = Jwt (secret config) claims /\
     unexpired claims w /\
     redis_get w (session_key (sessionId claims)) = Some session /\
     redis w' =
       <[session_key (sessionId claims) :=
           (clock w + 604800000, touch session (clock w))]> (redis w)).
Proof.
  unfold verifyToken. rewrite run_try_catch, run_bind.
  destruct (run (jwt_verify _ _) w) as [[decoded|e] w1] eqn:Hv;
    pose proof (run_jwt_verify_frame _ _ _ _ _ Hv) as ->.
  - destruct token as [|signer claims]; [discriminate|].
    apply run_jwt_verify_payload in Hv as (-> & -> & Hexp).
    rewrite run_bind, run_getSession.
    destruct (attempt w) as [[e|] w2] eqn:Ha;
      pose proof (attempt_frame _ _ _ Ha) as Hf.
    + destruct e; cbn; intros [= <- <-]; left; eexists; split;
        try reflexivity; apply Hf.
    + rewrite (same_but_faults_get _ _ _ Hf).
      destruct (redis_get w _) as [session|] eqn:Hget.
      * cbn -[setSession session_ttl]. rewrite run_bind, run_setSession.
        destruct (attempt w2) as [[e|] w3] eqn:Ha3;
          pose proof (attempt_frame _ _ _ Ha3) as Hf3.
        -- destruct e; cbn; intros [= <- <-]; left; eexists; split;
             try reflexivity; cbn; destruct Hf as (_ & _ & _ & Hr & _);
             destruct Hf3 as (_ & _ & _ & Hr3 & _); congruence.
        -- cbn. intros [= <- <-]. right. exists claims, session.
           repeat split; auto.
           destruct Hf as (Hc & _ & _ & Hr & _).
           destruct Hf3 as (Hc3 & _ & _ & Hr3 & _).
           cbn. rewrite Hr3, Hr, Hc3, Hc. reflexivity.
      * cbn. intros [= <- <-]. left. eexists; split; [reflexivity|apply Hf].
  - destruct e; cbn; intros [= <- <-]; left; eexists; split; reflexivity.
Qed.

(** [verifyToken] never throws, and what it grants is sound: the answer is
    the claims of the presented token itself, which is signed with the
    secret and not expired and whose session is live in the store. *)
Theorem verifyToken_grants_only_live_signed_tokens (config : Config)
    (token : Token) (w : World) :
  exists o w',
    run (verifyToken config token) w = (Returned o, w') /\
    forall claims,
      o = Granted claims ->
      token = Jwt (secret config) claims /\
      unexpired claims w /\
      exists session,
        redis_get w (session_key (sessionId claims)) = Some session.
Proof.
  destruct (run (verifyToken config token) w) as [o w'] eqn:Hrun.
  destruct (run_verifyToken_cases _ _ _ _ _ Hrun)
    as [(why & -> & _) | (claims & session & -> & -> & Hexp & Hget & _)].
  - do 2 eexists. split; [reflexivity|]. discriminate.
  - do 2 eexists. split; [reflexivity|]. intros ? [= <-]. eauto.
Qed.

(** [verifyToken] writes to the store only when it grants: a refused token
    leaves the store as it was, and a granted one rewrites the session it
    names, and nothing else, with [lastActivity] set to the clock and a
    fresh seven days to live. *)
Theorem verifyToken_touches_only_the_granted_session (config : Config)
    (token : Token) (w w' : World) (o : Outcome JWTPayload) :
  run (verifyToken config token) w = (Returned o, w') ->
  match o with
  | Null _ => redis w' = redis w
  | Granted claims =>
      exists session,
        redis_get w (session_key (sessionId claims)) = Some session /\
        redis w' =
          <[session_key (sessionId claims) :=
              (clock w + 604800000, touch session (clock w))]> (redis w)
  end.
Proof.
  intros Hrun.
  destruct (run_verifyToken_cases _ _ _ _ _ Hrun)
    as [(why & [= ->] & Hr) | (claims & session & [= ->] & _ & _ & Hget & Hr)];
    eauto.
Qed.

(** A token past its [exp] (or exactly at it) is refused as expired before
    the store is asked anything: whatever the state of the session and of
    the Redis client, the world only gains the debug line. *)
Theorem expired_token_is_refused_before_the_store (config : Config)
    (claims : JWTPayload) (deadline : Z) (w : World) :
  exp claims = Some deadline ->
  deadline <= clock w / 1000 ->
  run (verifyToken config (Jwt (secret config) claims)) w =
    (Returned (Null TokenExpired), add_log LDebug "Token expired" w).
Proof.
  intros Hexp Hpast. unfold verifyToken, jwt_verify.
  rewrite String.eqb_refl, run_try_catch, run_bind. cbn [run].
  rewrite Hexp. destruct (Z.leb_spec deadline (clock w / 1000)); [|lia].
  reflexivity.
Qed.

(** A token that does not parse, or that is signed with another key, is
    refused as invalid before the store is asked anything: the world only
    gains the warning. *)
Theorem unsigned_token_is_refused_before_the_store (config : Config)
    (token : Token) (w : World) :
  (forall claims, token <> Jwt (secret config) claims) ->
  run (verifyToken config token) w =
    (Returned (Null TokenInvalid), add_log LWarn "Invalid token" w).
Proof.
  intros Hforeign. unfold verifyToken, jwt_verify.
  rewrite run_try_catch, run_bind.
  destruct token as [|signer claims]; [reflexivity|].
  destruct (String.eqb_spec signer (secret config)) as [->|]; [|reflexivity].
  now destruct (Hforeign claims).
Qed.

(** An access token stays good until its [exp]: issued on an available
    client with a lifetime of at most seven days, and presented at any
    later instant before its expiry, with the store not written in between
    and the client available, it is granted with the user's identifier. *)
Theorem access_token_is_good_until_expiry (config : Config) (user : User)
    (device : option string) (w w1 w2 : World) (bundle : TokenBundle) :
  available w ->
  expiresIn config <= session_ttl ->
  run (generateTokens config user device) w = (Returned bundle, w1) ->
  redis w2 = redis w1 ->
  available w2 ->
  clock w <= clock w2 ->
  clock w2 / 1000 < clock w / 1000 + expiresIn config ->
  exists claims w3,
    run (verifyToken config (accessToken bundle)) w2 = (Returned (Granted claims), w3) /\
    userId claims = id user /\
    deviceId claims = device.
Proof.
  intros Hw Hspan Hissue Hsame Hw2 Hlater Hfresh.
  rewrite available_generateTokens in Hissue by assumption. cbn zeta in Hissue.
  injection Hissue as <- <-. cbn [accessToken].
  do 2 eexists. split.
  - eapply available_verifyToken; auto.
    + intros d [= <-]. exact Hfresh.
    + unfold redis_get. rewrite Hsame. cbn. rewrite lookup_insert_eq.
      destruct (Z.ltb_spec (clock w2) (clock w + session_ttl * 1000)); auto.
      unfold session_ttl in *. Z.div_mod_to_equations. lia.
  - split; reflexivity.
Qed.

(** The session outlives the refresh token that names it: with a refresh
    lifetime of at most seven days, a refresh token issued on an available
    client can be rotated at any later instant before its expiry, as long
    as the store has not been written in between and the client is
    available. *)
Theorem unexpired_refresh_token_finds_its_session (config : Config) (user : User)
    (device : option string) (w w1 w2 : World) (bundle : TokenBundle) :
  available w ->
  refreshExpiresIn config <= session_ttl ->
  run (generateTokens config user device) w = (Returned bundle, w1) ->
  redis w2 = redis w1 ->
  available w2 ->
  clock w <= clock w2 ->
  clock w2 / 1000 < clock w / 1000 + refreshExpiresIn config ->
  exists pair w3,
    run (refreshTokens config (refreshToken bundle)) w2 = (Returned (Granted pair), w3).
Proof.
  intros Hw Hspan Hissue Hsame Hw2 Hlater Hfresh.
  rewrite available_generateTokens in Hissue by assumption. cbn zeta in Hissue.
  injection Hissue as <- <-. cbn [refreshToken].
  do 2 eexists.
  eapply available_refreshTokens with
    (session := new_session user device (clock w) (clock w)); auto.
  - intros d [= <-]. exact Hfresh.
  - unfold redis_get. rewrite Hsame. cbn. rewrite lookup_insert_eq.
    destruct (Z.ltb_spec (clock w2) (clock w + session_ttl * 1000)); auto.
    unfold session_ttl in *. Z.div_mod_to_equations. lia.
Qed.

(** ** Rotating *)

Lemma attempt_error w e w1 :
  attempt w = (Some e, w1) -> failure_of e = StoreUnavailable.
Proof.
  unfold attempt. destruct (isConnected w && client w).
  - destruct (next_fault w) as [[] w2]; [|discriminate]. now intros [= <- _].
  - now intros [= <- _].
Qed.

Lemma run_refreshTokens_cases config token w o w' :
  run (refreshTokens config token) w = (o, w') ->
  (exists why,
     o = Returned (Null why) /\ (why <> StoreUnavailable -> redis w' = redis w)) \/
  (exists claims session,
     token = Jwt (secret config) claims /\
     unexpired claims w /\
     redis_get w (session_key (sessionId claims)) = Some session /\
     s_userId session = userId claims /\
     let sid := uuids w (uuid_next w) in
     let user := session_user session in
     o = Returned (Granted
           {| p_accessToken :=
                Jwt (secret config)
                  (stamp (access_payload user sid (s_deviceId session))
                     (clock w / 1000) (expiresIn config));
              p_refreshToken :=
                Jwt (secret config)
                  (stamp (refresh_payload user sid) (clock w / 1000)
                     (refreshExpiresIn config)) |}) /\
     redis w' =
       delete (session_key (sessionId claims))
         (<[session_key sid :=
              (clock w + 604800000,
               new_session user (s_deviceId session) (clock w) (clock w))]>
            (redis w))).
Proof.
  unfold refreshTokens. rewrite run_try_catch, run_bind.
  destruct (run (jwt_verify _ _) w) as [[decoded|e] w1] eqn:Hv;
    pose proof (run_jwt_verify_frame _ _ _ _ _ Hv) as ->.
  - destruct token as [|signer claims]; [discriminate|].
    apply run_jwt_verify_payload in Hv as (-> & -> & Hexp).
    rewrite run_bind, run_getSession.
    destruct (attempt w) as [[e|] w2] eqn:Ha;
      pose proof (attempt_frame _ _ _ Ha) as Hf.
    + cbn. intros [= <- <-]. left. eexists. split; [reflexivity|].
      intros _. apply Hf.
    + rewrite (same_but_faults_get _ _ _ Hf).
      destruct (redis_get w _) as [session|] eqn:Hget.
      * destruct (String.eqb_spec (s_userId session) (userId claims)) as [Hu|Hu];
          cbn [negb].
        -- rewrite run_bind, run_generateTokens. cbn zeta.
           destruct (attempt (set_uuid_next _ w2)) as [[e|] w3] eqn:Ha3.
           ++ cbn. intros [= <- <-]. left. eexists. split; [reflexivity|].
              intros Hwhy. now rewrite (attempt_error _ _ _ Ha3) in Hwhy.
           ++ rewrite run_bind, run_deleteSession.
              destruct (attempt (redis_setex _ _ _ w3)) as [[e|] w4] eqn:Ha4.
              ** cbn. intros [= <- <-]. left. eexists. split; [reflexivity|].
                 intros Hwhy. now rewrite (attempt_error _ _ _ Ha4) in Hwhy.
              ** cbn. intros [= <- <-]. right. exists claims, session.
                 repeat split; auto.
                 { destruct Hf as (Hc & _ & _ & _ & Hus & Hun & _).
                   now rewrite Hc, Hus, Hun. }
                 { apply attempt_frame in Ha3 as (Hc3 & _ & _ & Hr3 & _).
                   apply attempt_frame in Ha4 as (_ & _ & _ & Hr4 & _).
                   destruct Hf as (Hc & _ & _ & Hr & Hus & Hun & _).
                   cbn in *. rewrite Hr4, Hr3, Hr, Hc3, Hc, Hus, Hun.
                   reflexivity. }
        -- cbn. intros [= <- <-]. left. eexists. split; [reflexivity|].
           intros _. apply Hf.
      * cbn. intros [= <- <-]. left. eexists. split; [reflexivity|].
        intros _. apply Hf.
  - cbn. intros [= <- <-]. left. eexists. split; [reflexivity|]. reflexivity.
Qed.

(** [refreshTokens] never throws, and a rotation refused for any reason
    other than a failure of the store has written nothing. *)
Theorem refused_rotation_writes_nothing (config : Config) (token : Token)
    (w : World) :
  exists o w',
    run (refreshTokens config token) w = (Returned o, w') /\
    forall why, o = Null why -> why <> StoreUnavailable -> redis w' = redis w.
Proof.
  destruct (run (refreshTokens config token) w) as [o w'] eqn:Hrun.
  destruct (run_refreshTokens_cases _ _ _ _ _ Hrun)
    as [(why & -> & Hr) | (claims & session & _ & _ & _ & _ & Ho & _)].
  - do 2 eexists. split; [reflexivity|]. intros ? [= <-]. exact Hr.
  - cbn zeta in Ho. subst o. do 2 eexists. split; [reflexivity|]. discriminate.
Qed.

(** A successful rotation issues for the same user and device under a new
    session: both new tokens are signed with the secret, carry the user
    identifier of the token presented and the identifier drawn from
    [randomUUID]; the access token carries the device of the old session;
    and the store has lost the old session and gained the new one, created
    at the instant of the rotation. *)
Theorem rotation_issues_for_the_same_user_and_device (config : Config)
    (signer : string) (old : JWTPayload) (pair : TokenPair) (w w' : World) :
  run (refreshTokens config (Jwt signer old)) w = (Returned (Granted pair), w') ->
  exists session access refresh,
    redis_get w (session_key (sessionId old)) = Some session /\
    p_accessToken pair = Jwt (secret config) access /\
    p_refreshToken pair = Jwt (secret config) refresh /\
    userId access = userId old /\
    userId refresh = userId old /\
    sessionId access = uuids w (uuid_next w) /\
    sessionId refresh = uuids w (uuid_next w) /\
    deviceId access = s_deviceId session /\
    exp access = Some (clock w / 1000 + expiresIn config) /\
    exp refresh = Some (clock w / 1000 + refreshExpiresIn config) /\
    redis w' =
      delete (session_key (sessionId old))
        (<[session_key (uuids w (uuid_next w)) :=
             (clock w + 604800000,
              new_session (session_user session) (s_deviceId session)
                (clock w) (clock w))]> (redis w)).
Proof.
  intros Hrun.
  destruct (run_refreshTokens_cases _ _ _ _ _ Hrun)
    as [(why & [=] & _) | (claims & session & [= _ <-] & _ & Hget & Hu & Ho & Hr)].
  cbn zeta in Ho, Hr. injection Ho as ->.
  exists session. do 2 eexists. split; [exact Hget|].
  cbn [p_accessToken p_refreshToken].
  split; [reflexivity|]. split; [reflexivity|].
  cbn. repeat split; auto.
Qed.

(** When the client rejects the [DEL] that ends a rotation, the caller gets
    [null], yet the new session is already written and nothing has been
    deleted: the store is the old store plus a session that no token
    handed out refers to. *)
Theorem rejected_delete_leaves_both_sessions (config : Config)
    (claims : JWTPayload) (session : Session) (rest : list bool) (w : World) :
  isConnected w = true ->
  client w = true ->
  faults w = false :: false :: true :: rest ->
  unexpired claims w ->
  redis_get w (session_key (sessionId claims)) = Some session ->
  s_userId session = userId claims ->
  exists w',
    run (refreshTokens config (Jwt (secret config) claims)) w =
      (Returned (Null StoreUnavailable), w') /\
    redis w' =
      <[session_key (uuids w (uuid_next w)) :=
          (clock w + 604800000,
           new_session (session_user session) (s_deviceId session)
             (clock w) (clock w))]> (redis w) /\
    faults w' = rest /\
    log w' = (log w ++ [(LError, "Refresh token error:")])%list.
Proof.
  intros Hc Hcl Hf Hexp Hget Huser.
  assert (Hfresh : match exp claims with
                   | Some d => d <=? clock w / 1000
                   | None => false
                   end = false).
  { destruct (exp claims) as [d|] eqn:E; auto.
    specialize (Hexp d E). lia. }
  destruct w as [clk cl conn store fl us un lg]. cbn in Hc, Hcl, Hf, Hfresh.
  subst cl conn fl.
  unfold refreshTokens, jwt_verify. rewrite String.eqb_refl.
  assert (Hget' : forall f,
             redis_get
               (set_faults f
                  (mkWorld clk true true store (false :: false :: true :: rest) us un lg))
               (session_key (sessionId claims)) = Some session)
    by (intros f; exact Hget).
  destruct (exp claims) as [d|] eqn:E;
    repeat (cbn -[redis_get session_key Z.div Z.leb Z.add Z.mul session_ttl];
            rewrite ?Hfresh, ?Hget', ?Huser, ?String.eqb_refl);
    eexists; repeat split.
Qed.

Lemma session_key_inj a b : session_key a = session_key b -> a = b.
Proof. unfold session_key. cbn. intros H. now injection H. Qed.

(** The pair a rotation returns is live: on an available client, with
    positive token lifetimes and a fresh identifier from [randomUUID],
    right after the rotation the new access token is granted with the user
    and device of the old session, and the new refresh token can itself be
    rotated. *)
Theorem rotated_pair_is_live (config : Config) (claims : JWTPayload)
    (session : Session) (w : World) :
  available w ->
  0 < expiresIn config ->
  0 < refreshExpiresIn config ->
  unexpired claims w ->
  redis_get w (session_key (sessionId claims)) = Some session ->
  s_userId session = userId claims ->
  uuids w (uuid_next w) <> sessionId claims ->
  exists pair w1 granted w2 pair' w3,
    run (refreshTokens config (Jwt (secret config) claims)) w =
      (Returned (Granted pair), w1) /\
    run (verifyToken config (p_accessToken pair)) w1 =
      (Returned (Granted granted), w2) /\
    userId granted = userId claims /\
    deviceId granted = s_deviceId session /\
    run (refreshTokens config (p_refreshToken pair)) w1 =
      (Returned (Granted pair'), w3).
Proof.
  intros Hw Hpos Hrpos Hexp Hget Huser Hnew.
  rewrite available_refreshTokens with (session := session) by assumption.
  cbn zeta.
  set (sid := uuids w (uuid_next w)) in *.
  set (fresh := new_session (session_user session) (s_deviceId session)
                  (clock w) (clock w)).
  set (w1 := redis_del _ _).
  assert (Hw1 : available w1)
    by (destruct Hw as (H1 & H2 & H3); repeat split; assumption).
  assert (Hlive : redis_get w1 (session_key sid) = Some fresh).
  { unfold redis_get, w1. cbn.
    rewrite lookup_delete_ne by (intros H; apply session_key_inj in H; congruence).
    rewrite lookup_insert_eq.
    destruct (Z.ltb_spec (clock w) (clock w + session_ttl * 1000)); auto.
    unfold session_ttl in *. lia. }
  do 6 eexists. split; [reflexivity|]. cbn [p_accessToken p_refreshToken].
  split; [|split; [|split]].
  - eapply available_verifyToken; eauto.
    intros d [= <-]. cbn. lia.
  - cbn. exact Huser.
  - reflexivity.
  - eapply available_refreshTokens with (session := fresh); eauto.
    intros d [= <-]. cbn. lia.
Qed.

(** ** Revoking *)

(** [revokeSession] either returns, having removed exactly the key of that
    session (also when there was no such session), or throws and leaves the
    store as it was; it throws whenever the client is not connected. *)
Theorem revokeSession_deletes_or_throws (sid : string) (w : World) :
  match run (revokeSession sid) w with
  | (Returned _, w') =>
      isConnected w = true /\ redis w' = delete (session_key sid) (redis w)
  | (Thrown e, w') => failure_of e = StoreUnavailable /\ redis w' = redis w
  end.
Proof.
  unfold revokeSession. rewrite run_deleteSession.
  destruct (attempt w) as [[e|] w1] eqn:Ha;
    pose proof (attempt_frame _ _ _ Ha) as (_ & _ & _ & Hr & _).
  - split; [eapply attempt_error; eauto | exact Hr].
  - split; [|cbn; now rewrite Hr].
    revert Ha. unfold attempt.
    destruct (isConnected w); [reflexivity | discriminate].
Qed.

(** Revoking one session spares the others: on an available client, a
    token that is signed with the secret and not expired and names another
    live session is still granted after the revocation. *)
Theorem revoking_one_session_spares_the_others (config : Config) (sid : string)
    (claims : JWTPayload) (session : Session) (w : World) :
  available w ->
  unexpired claims w ->
  redis_get w (session_key (sessionId claims)) = Some session ->
  sessionId claims <> sid ->
  exists w1 w2,
    run (revokeSession sid) w = (Returned tt, w1) /\
    run (verifyToken config (Jwt (secret config) claims)) w1 =
      (Returned (Granted claims), w2).
Proof.
  intros Hw Hexp Hget Hother. unfold revokeSession.
  rewrite available_deleteSession by assumption.
  do 2 eexists. split; [reflexivity|].
  eapply available_verifyToken with (session := session).
  - destruct Hw as (H1 & H2 & H3). repeat split; assumption.
  - reflexivity.
  - exact Hexp.
  - unfold redis_get in *. cbn.
    rewrite lookup_delete_ne; [exact Hget|].
    intros H. apply session_key_inj in H. congruence.
Qed.

(** ** The middleware *)

Lemma substring_whole s : String.substring 0 (String.length s) s = s.
Proof. induction s as [|c s IH]; cbn; [reflexivity | now rewrite IH]. Qed.

Lemma bearer_header s :
  present (Some ("Bearer " +:+ s)) = true /\
  String.prefix "Bearer " ("Bearer " +:+ s) = true /\
  substring_from 7 ("Bearer " +:+ s) = s.
Proof.
  split; [|split].
  - reflexivity.
  - cbv [String.append String.prefix]. destruct s; reflexivity.
  - unfold substring_from. cbv [String.append]. fold String.append.
    cbn [String.length String.substring Nat.sub].
    rewrite Nat.sub_0_r. apply substring_whole.
Qed.

Lemma run_authenticate config wire req w :
  run (authenticate config wire req) w =
  if has_bearer req then
    match run (verifyToken config (wire (bearer_of req))) w with
    | (Returned (Granted payload), w') =>
        (Returned (Next (with_identity req payload)), w')
    | (Returned (Null _), w') =>
        (Returned (Respond 401 (ErrorBody "Invalid or expired token")), w')
    | (Thrown e, w') =>
        (Returned (Respond 500 (ErrorBody "Authentication error")),
         add_log LError "Authentication middleware error:" w')
    end
  else (Returned (Respond 401 (ErrorBody "Authorization token required")), w).
Proof.
  unfold authenticate, has_bearer, bearer_of. rewrite run_try_catch.
  destruct (present (authorization req)); cbn [negb orb andb]; [|reflexivity].
  destruct (String.prefix _ _); cbn [negb]; [|reflexivity].
  rewrite run_bind.
  destruct (run (verifyToken _ _) w) as [[[payload|why]|e] w']; reflexivity.
Qed.

(** Without a bearer token ([Authorization] missing, empty, or not starting
    with ["Bearer "]) [authenticate] answers 401 at once: no token is
    verified, the store is not asked, nothing is logged. *)
Theorem authenticate_without_bearer_answers_401 (config : Config)
    (wire : string -> Token) (req : AuthenticatedRequest) (w : World) :
  has_bearer req = false ->
  run (authenticate config wire req) w =
    (Returned (Respond 401 (ErrorBody "Authorization token required")), w).
Proof. intros H. now rewrite run_authenticate, H. Qed.

(** [authenticate] never throws and never answers 500.  It passes the
    request on only for a bearer token that is signed with the secret, not
    expired and backed by a live session, and then with the identity
    written in that token; every other request is answered 401. *)
Theorem authenticate_passes_only_live_signed_tokens (config : Config)
    (wire : string -> Token) (req : AuthenticatedRequest) (w : World) :
  exists handled w',
    run (authenticate config wire req) w = (Returned handled, w') /\
    match handled with
    | Next req' =>
        exists claims session,
          wire (bearer_of req) = Jwt (secret config) claims /\
          unexpired claims w /\
          redis_get w (session_key (sessionId claims)) = Some session /\
          req' = with_identity req claims
    | Respond status _ => status = 401
    end.
Proof.
  rewrite run_authenticate.
  destruct (has_bearer req); [|do 2 eexists; split; reflexivity].
  destruct (run (verifyToken config (wire (bearer_of req))) w) as [o w'] eqn:Hrun.
  destruct (run_verifyToken_cases _ _ _ _ _ Hrun)
    as [(why & -> & _) | (claims & session & -> & Hw & Hexp & Hget & _)].
  - do 2 eexists; split; reflexivity.
  - do 2 eexists; split; [reflexivity|]. exists claims, session. auto.
Qed.

(** The token of a login opens the protected routes with the attributes of
    the user who logged in, and the host guard follows the user's host
    flag: on an available client and with a positive access-token
    lifetime, [authenticate] passes the access token just issued with
    [req.user] and [req.deviceId] set from the user and the device, and
    [requireHost] lets that request through exactly when the user is a
    host. *)
Theorem issued_token_authenticates_as_its_user (config : Config)
    (wire : string -> Token) (user : User) (device : option string)
    (bundle : TokenBundle) (text : string) (req : AuthenticatedRequest)
    (w w1 : World) :
  available w ->
  0 < expiresIn config ->
  run (generateTokens config user device) w = (Returned bundle, w1) ->
  authorization req = Some ("Bearer " +:+ text) ->
  wire text = accessToken bundle ->
  exists req' w2,
    run (authenticate config wire req) w1 = (Returned (Next req'), w2) /\
    req_user req' =
      Some {| ru_id := id user;
              ru_email := Some (u_email user);
              ru_username := Some (u_username user);
              ru_isHost := Some (or_bool (is_host user) false);
              ru_isVerified := Some (or_bool (is_verified user) false) |} /\
    req_deviceId req' = device /\
    (requireHost req' = Next req' <-> is_host user = Some true) /\
    (requireVerified req' = Next req' <-> is_verified user = Some true).
Proof.
  intros Hw Hpos Hissue Hauth Hwire.
  rewrite available_generateTokens in Hissue by assumption. cbn zeta in Hissue.
  injection Hissue as <- <-. cbn [accessToken] in Hwire.
  destruct (bearer_header text) as (Hp & Hpre & Hsub).
  rewrite run_authenticate. unfold has_bearer, bearer_of.
  rewrite Hauth.
  change (default "" (Some ("Bearer " +:+ text))) with ("Bearer " +:+ text).
  rewrite Hp, Hpre, Hsub, Hwire. cbn [andb].
  erewrite available_verifyToken;
    [ | exact Hw | reflexivity
      | intros d [= <-]; cbn; lia
      | cbn [sessionId stamp access_payload]; apply redis_get_setex; reflexivity ].
  do 2 eexists. split; [reflexivity|].
  split; [reflexivity|]. split; [reflexivity|].
  unfold requireHost, requireVerified. cbn.
  split.
  - destruct (is_host user) as [[]|]; cbn; split; intros H;
      try reflexivity; discriminate.
  - destruct (is_verified user) as [[]|]; cbn; split; intros H;
      try reflexivity; discriminate.
Qed.

(** A refresh token works as a bearer token, but opens no guarded route:
    right after a login, [authenticate] passes the refresh token with the
    user's identifier and no other attribute, and [requireHost] and
    [requireVerified] both answer 403 for that request, whatever the
    user's flags. *)
Theorem refresh_token_authenticates_without_roles (config : Config)
    (wire : string -> Token) (user : User) (device : option string)
    (bundle : TokenBundle) (text : string) (req : AuthenticatedRequest)
    (w w1 : World) :
  available w ->
  0 < refreshExpiresIn config ->
  run (generateTokens config user device) w = (Returned bundle, w1) ->
  authorization req = Some ("Bearer " +:+ text) ->
  wire text = refreshToken bundle ->
  exists req' w2,
    run (authenticate config wire req) w1 = (Returned (Next req'), w2) /\
    req_user req' =
      Some {| ru_id := id user;
              ru_email := None;
              ru_username := None;
              ru_isHost := None;
              ru_isVerified := None |} /\
    req_deviceId req' = None /\
    requireHost req' = Respond 403 (ErrorBody "Host privileges required") /\
    requireVerified req' = Respond 403 (ErrorBody "Email verification required").
Proof.
  intros Hw Hpos Hissue Hauth Hwire.
  rewrite available_generateTokens in Hissue by assumption. cbn zeta in Hissue.
  injection Hissue as <- <-. cbn [refreshToken] in Hwire.
  destruct (bearer_header text) as (Hp & Hpre & Hsub).
  rewrite run_authenticate. unfold has_bearer, bearer_of.
  rewrite Hauth.
  change (default "" (Some ("Bearer " +:+ text))) with ("Bearer " +:+ text).
  rewrite Hp, Hpre, Hsub, Hwire. cbn [andb].
  erewrite available_verifyToken;
    [ | exact Hw | reflexivity
      | intros d [= <-]; cbn; lia
      | cbn [sessionId stamp refresh_payload]; apply redis_get_setex; reflexivity ].
  do 2 eexists. repeat split.
Qed.

(** After a rotation the guarded routes are closed, also to hosts and
    verified users: on every world the service can reach, whenever
    [authenticate] passes the access token of a successful rotation,
    [requireHost] and [requireVerified] answer 403 for the request it
    passes on. *)
Theorem rotated_token_fails_the_role_guards (config : Config)
    (wire : string -> Token) (token : Token) (pair : TokenPair)
    (text : string) (req req' : AuthenticatedRequest) (w w1 w2 w3 : World) :
  reachable config w ->
  run (refreshTokens config token) w = (Returned (Granted pair), w1) ->
  authorization req = Some ("Bearer " +:+ text) ->
  wire text = p_accessToken pair ->
  run (authenticate config wire req) w2 = (Returned (Next req'), w3) ->
  requireHost req' = Respond 403 (ErrorBody "Host privileges required") /\
  requireVerified req' = Respond 403 (ErrorBody "Email verification required").
Proof.
  intros Hreach Hrotate Hauth Hwire Hnext.
  apply reachable_bare in Hreach.
  destruct (run_refreshTokens_cases _ _ _ _ _ Hrotate)
    as [(why & [=] & _) | (claims & session & _ & _ & Hget & _ & Ho & _)].
  cbn zeta in Ho. injection Ho as ->.
  destruct (bare_store_get _ _ _ Hreach Hget) as (He & Hu & Hh & Hv).
  destruct (bearer_header text) as (Hp & Hpre & Hsub).
  rewrite run_authenticate in Hnext. unfold has_bearer, bearer_of in Hnext.
  rewrite Hauth in Hnext.
  change (default "" (Some ("Bearer " +:+ text))) with ("Bearer " +:+ text) in Hnext.
  rewrite Hp, Hpre, Hsub, Hwire in Hnext. cbn [andb p_accessToken] in Hnext.
  destruct (run (verifyToken _ _) w2) as [o w'] eqn:Hrun.
  destruct (run_verifyToken_cases _ _ _ _ _ Hrun)
    as [(why & -> & _) | (granted & s & -> & [= <-] & _)]; [discriminate|].
  injection Hnext as <- _.
  unfold requireHost, requireVerified. cbn. rewrite Hh, Hv. split; reflexivity.
Qed.

(** [optionalAuth] never stops a request and never throws: it always calls
    [next].  Without a bearer token the request goes on as it came and the
    world is untouched.  With one, the request goes on with the identity
    of the token exactly when [verifyToken] grants the token, which it
    does for every token that is signed with the secret, not expired and
    backed by a live session when the client is available; when
    [verifyToken] returns [null] the request goes on as it came. *)
Theorem optionalAuth_always_continues (config : Config)
    (wire : string -> Token) (req : AuthenticatedRequest) (w : World) :
  exists req' w',
    run (optionalAuth config wire req) w = (Returned (Next req'), w') /\
    (has_bearer req = false -> req' = req /\ w' = w) /\
    (has_bearer req = true ->
     match run (verifyToken config (wire (bearer_of req))) w with
     | (Returned (Granted claims), w1) =>
         req' = with_identity req claims /\ w' = w1
     | (Returned (Null _), w1) => req' = req /\ w' = w1
     | (Thrown _, _) => False
     end) /\
    (has_bearer req = true ->
     available w ->
     forall claims session,
       wire (bearer_of req) = Jwt (secret config) claims ->
       unexpired claims w ->
       redis_get w (session_key (sessionId claims)) = Some session ->
       req' = with_identity req claims).
Proof.
  unfold optionalAuth. rewrite run_try_catch.
  fold (has_bearer req). fold (bearer_of req).
  destruct (has_bearer req).
  - rewrite run_bind.
    destruct (verifyToken_returns config (wire (bearer_of req)) w)
      as (o & w1 & Hrun).
    rewrite Hrun.
    destruct o as [claims|why]; (do 2 eexists; split; [reflexivity|]);
      (split; [discriminate|]); (split; [intros _; split; reflexivity|]);
      intros _ Hw granted session Hwire Hexp Hget;
      rewrite Hwire in Hrun;
      rewrite (available_verifyToken config _ granted session w Hw eq_refl Hexp Hget)
        in Hrun.
    + now injection Hrun as <- _.
    + discriminate.
  - do 2 eexists. split; [reflexivity|].
    split; [intros _; split; reflexivity|]. split; discriminate.
Qed.

Lemma optionalAuth_always_continues_witness :
  fst (run (optionalAuth default_config sample_wire (bearer_request "A1")) w_login) =
    Returned (Next (with_identity (bearer_request "A1") claims_A1)) /\
  fst (run (optionalAuth default_config sample_wire (bearer_request "A1")) w_flaky) =
    Returned (Next (bearer_request "A1")).
Proof.
  destruct (optionalAuth_always_continues default_config sample_wire
              (bearer_request "A1") w_login) as (req1 & w1 & Hrun1 & _ & _ & Hgrant).
  destruct (optionalAuth_always_continues default_config sample_wire
              (bearer_request "A1") w_flaky) as (req2 & w2 & Hrun2 & _ & Hnull & _).
  rewrite Hrun1, Hrun2. cbn [fst]. split.
  - rewrite (Hgrant eq_refl (conj eq_refl (conj eq_refl eq_refl)) claims_A1 session_A);
      [reflexivity | reflexivity | | vm_compute; reflexivity].
    intros d [= <-]. vm_compute. reflexivity.
  - destruct (Hnull eq_refl) as [-> _]. reflexivity.
Defined.

(** [logout] revokes nothing: right after a login on an available client,
    the logout route (behind [authenticate]) answers 200, and the access
    token it was called with is still granted afterwards. *)
Theorem logout_leaves_the_session_live (config : Config)
    (wire : string -> Token) (user : User) (device : option string)
    (bundle : TokenBundle) (text : string) (req : AuthenticatedRequest)
    (w w1 : World) :
  available w ->
  0 < expiresIn config ->
  run (generateTokens config user device) w = (Returned bundle, w1) ->
  authorization req = Some ("Bearer " +:+ text) ->
  wire text = accessToken bundle ->
  exists w2 claims w3,
    run (behind_authenticate config wire logout req) w1 =
      (Returned (Respond 200 (MessageBody "Logout successful")), w2) /\
    run (verifyToken config (accessToken bundle)) w2 =
      (Returned (Granted claims), w3) /\
    userId claims = id user.
Proof.
  intros Hw Hpos Hissue Hauth Hwire.
  rewrite available_generateTokens in Hissue by assumption. cbn zeta in Hissue.
  injection Hissue as <- <-. cbn [accessToken] in Hwire |- *.
  destruct (bearer_header text) as (Hp & Hpre & Hsub).
  unfold behind_authenticate. rewrite run_bind, run_authenticate.
  unfold has_bearer, bearer_of. rewrite Hauth.
  change (default "" (Some ("Bearer " +:+ text))) with ("Bearer " +:+ text).
  rewrite Hp, Hpre, Hsub, Hwire. cbn [andb].
  erewrite available_verifyToken;
    [ | exact Hw | reflexivity
      | intros d [= <-]; cbn; lia
      | cbn [sessionId stamp access_payload]; apply redis_get_setex; reflexivity ].
  do 3 eexists. split; [reflexivity|]. split.
  - eapply available_verifyToken.
    + destruct Hw as (H1 & H2 & H3). repeat split; assumption.
    + reflexivity.
    + intros d [= <-]. cbn. lia.
    + cbn [sessionId stamp access_payload]. apply redis_get_setex. reflexivity.
  - reflexivity.
Qed.

(** The refresh controller never throws.  With [req.body] undefined it
    answers 401 ["Token refresh failed"] from its [catch], the store not
    asked; with a body whose [refreshToken] is falsy it answers 400 and
    touches nothing; otherwise it answers 200 with the new pair exactly
    when [refreshTokens] grants one, and 401 ["Invalid refresh token"]
    when [refreshTokens] returns [null]. *)
Theorem refreshToken_controller_answers (config : Config)
    (wire : string -> Token) (req : Request) (w : World) :
  exists status answer w',
    run (refreshToken_controller config wire req) w =
      (Returned (Respond status answer), w') /\
    match req_body req with
    | None =>
        status = 401 /\ answer = ErrorBody "Token refresh failed" /\
        w' = add_log LError "Token refresh error:" w
    | Some value =>
        if falsy value then
          status = 400 /\ answer = ErrorBody "Refresh token required" /\ w' = w
        else
          (exists why,
             run (refreshTokens config (presented wire value)) w =
               (Returned (Null why), w') /\
             status = 401 /\ answer = ErrorBody "Invalid refresh token") \/
          (exists pair,
             run (refreshTokens config (presented wire value)) w =
               (Returned (Granted pair), w') /\
             status = 200 /\
             answer = TokensBody "Tokens refreshed successfully" pair)
    end.
Proof.
  unfold refreshToken_controller. rewrite run_try_catch.
  destruct (req_body req) as [value|].
  - destruct (falsy value).
    + do 3 eexists. split; [reflexivity|]. auto.
    + rewrite run_bind.
      destruct (run (refreshTokens _ _) w) as [o w'] eqn:Hrun.
      destruct (run_refreshTokens_cases _ _ _ _ _ Hrun)
        as [(why & -> & _) | (claims & session & _ & _ & _ & _ & Ho & _)].
      * do 3 eexists. split; [reflexivity|]. left. eauto.
      * cbn zeta in Ho. subst o.
        do 3 eexists. split; [reflexivity|]. right. eauto.
  - do 3 eexists. split; [reflexivity|]. auto.
Qed.

(** ** The Redis client *)

(** For a retry count from zero up, the reconnect strategy gives up
    exactly when the count is above ten, and until then waits fifty
    milliseconds per retry, which is never more than the cap of five
    hundred. *)
Theorem reconnect_delay_is_fifty_per_retry (retries : Z) (w : World) :
  0 <= retries ->
  match run (reconnectStrategy retries) w with
  | (Returned (Some delay), w') =>
      retries <= 10 /\ delay = retries * 50 /\ 0 <= delay <= 500 /\ w' = w
  | (Returned None, w') =>
      10 < retries /\
      w' = add_log LError "Redis connection failed after 10 retries" w
  | (Thrown _, _) => False
  end.
Proof.
  intros Hcount. unfold reconnectStrategy.
  destruct (Z.ltb_spec 10 retries); cbn [run]; [auto|].
  repeat split; lia.
Qed.

Lemma reconnect_delay_is_fifty_per_retry_witness :
  match run (reconnectStrategy 10) w0 with
  | (Returned (Some delay), w') =>
      10 <= 10 /\ delay = 10 * 50 /\ 0 <= delay <= 500 /\ w' = w0
  | (Returned None, w') =>
      10 < 10 /\
      w' = add_log LError "Redis connection failed after 10 retries" w0
  | (Thrown _, _) => False
  end.
Proof.
  apply (reconnect_delay_is_fifty_per_retry 10 w0). discriminate.
Defined.

(** ** The store holds session records only *)

Lemma writes_session_keys_bind {A B} (p : Prog A) (f : A -> Prog B) :
  writes_session_keys p -> (forall a, writes_session_keys (f a)) ->
  writes_session_keys (bind p f).
Proof.
  intros Hp Hf.
  induction p as [a|e|k IH|k IH|lvl msg k IH|k IH|key k IH|key ttl v k IH|key k IH];
    cbn in *; auto.
  destruct Hp as (H1 & H2). split; auto.
Qed.

Lemma writes_session_keys_try_catch {A} (p : Prog A) (h : JsError -> Prog A) :
  writes_session_keys p -> (forall e, writes_session_keys (h e)) ->
  writes_session_keys (try_catch p h).
Proof.
  intros Hp Hh.
  induction p as [a|e|k IH|k IH|lvl msg k IH|k IH|key k IH|key ttl v k IH|key k IH];
    cbn in *; auto.
  destruct Hp as (H1 & H2). split; auto.
Qed.

Lemma writes_session_keys_run {A} (p : Prog A) (w : World) :
  writes_session_keys p -> session_keys_only w ->
  session_keys_only (snd (run p w)).
Proof.
  revert w.
  induction p as [a|e|k IH|k IH|lvl msg k IH|k IH|key k IH|key ttl v k IH|key k IH];
    intros w Hp Hw; cbn in *; auto.
  - destruct (next_fault w) as [[] w1] eqn:E;
      apply next_fault_frame in E as (_ & _ & _ & Hr & _);
      apply IH; auto; unfold session_keys_only; now rewrite Hr.
  - destruct Hp as (Hkey & Hk).
    destruct (next_fault w) as [[] w1] eqn:E;
      apply next_fault_frame in E as (_ & _ & _ & Hr & _);
      apply IH; auto; unfold session_keys_only; cbn; rewrite Hr; auto.
    intros k'. rewrite lookup_insert.
    destruct (decide (key = k')) as [<-|]; auto.
  - destruct (next_fault w) as [[] w1] eqn:E;
      apply next_fault_frame in E as (_ & _ & _ & Hr & _);
      apply IH; auto; unfold session_keys_only; cbn; rewrite Hr; auto.
    intros k'. rewrite lookup_delete.
    destruct (decide (key = k')); [intros [? [=]] | auto].
Qed.

Lemma writes_session_keys_setSession sid data ttl :
  writes_session_keys (setSession sid data ttl).
Proof. intros []; cbn; auto. split; eauto. intros []; cbn; auto. Qed.

Lemma writes_session_keys_getSession sid : writes_session_keys (getSession sid).
Proof. intros []; cbn; auto. intros []; cbn; auto. Qed.

Lemma writes_session_keys_deleteSession sid :
  writes_session_keys (deleteSession sid).
Proof. intros []; cbn; auto. intros []; cbn; auto. Qed.

Lemma writes_session_keys_jwt_verify token key :
  writes_session_keys (jwt_verify token key).
Proof.
  destruct token as [|signer claims]; cbn; auto.
  destruct (String.eqb signer key); cbn; auto.
  intros t. destruct (exp claims) as [d|]; cbn; auto.
  destruct (d <=? t / 1000); cbn; auto.
Qed.

Lemma writes_session_keys_generateTokens config user device :
  writes_session_keys (generateTokens config user device).
Proof.
  unfold generateTokens. intros sid. cbn -[setSession].
  intros signed_at signed_at' created active.
  apply writes_session_keys_bind; [|cbn; auto].
  apply writes_session_keys_setSession.
Qed.

Lemma writes_session_keys_verifyToken config token :
  writes_session_keys (verifyToken config token).
Proof.
  unfold verifyToken. apply writes_session_keys_try_catch.
  - apply writes_session_keys_bind; [apply writes_session_keys_jwt_verify|].
    intros decoded.
    apply writes_session_keys_bind; [apply writes_session_keys_getSession|].
    intros [session|]; [|cbn; auto]. intros now.
    apply writes_session_keys_bind; [|cbn; auto].
    apply writes_session_keys_setSession.
  - intros []; cbn; auto.
Qed.

Lemma writes_session_keys_refreshTokens config token :
  writes_session_keys (refreshTokens config token).
Proof.
  unfold refreshTokens. apply writes_session_keys_try_catch; [|cbn; auto].
  apply writes_session_keys_bind; [apply writes_session_keys_jwt_verify|].
  intros decoded.
  apply writes_session_keys_bind; [apply writes_session_keys_getSession|].
  intros [session|]; [|cbn; auto]. destruct (negb _); [cbn; auto|].
  apply writes_session_keys_bind; [apply writes_session_keys_generateTokens|].
  intros tokens.
  apply writes_session_keys_bind; [apply writes_session_keys_deleteSession|].
  cbn; auto.
Qed.

(** On every world the service can reach, every key of the store is a
    [session:] key, and the record under it has none of [email],
    [username], [isHost], [isVerified]. *)
Theorem store_holds_only_session_records (config : Config) (w : World)
    (key : string) (deadline : Z) (s : Session) :
  reachable config w ->
  redis w !! key = Some (deadline, s) ->
  (exists sid, key = session_key sid) /\ bare s.
Proof.
  intros Hreach Hkey. split; [|eapply reachable_bare; eauto].
  assert (Hkeys : session_keys_only w); [|apply Hkeys; eauto].
  clear Hkey. induction Hreach as [w H|w c _ IH|w w' _ IH H].
  - intros k. rewrite H, lookup_empty. intros [? [=]].
  - destruct c; cbn [perform]; apply writes_session_keys_run; auto.
    + apply writes_session_keys_generateTokens.
    + apply writes_session_keys_verifyToken.
    + apply writes_session_keys_refreshTokens.
    + apply writes_session_keys_deleteSession.
    + cbn; auto.
  - unfold session_keys_only. now rewrite H.
Qed.

(** ** The properties above on Alice's session *)

Lemma verifyToken_touches_only_the_granted_session_witness :
  exists session,
    redis_get w_login (session_key (sessionId claims_A1)) = Some session /\
    redis (snd (run (verifyToken default_config (accessToken pair_A)) w_login)) =
      <[session_key (sessionId claims_A1) :=
          (clock w_login + 604800000, touch session (clock w_login))]>
        (redis w_login).
Proof.
  apply (verifyToken_touches_only_the_granted_session default_config
           (accessToken pair_A) w_login
           (snd (run (verifyToken default_config (accessToken pair_A)) w_login))
           (Granted claims_A1)).
  reflexivity.
Defined.

Lemma expired_token_is_refused_before_the_store_witness :
  run (verifyToken default_config (Jwt (secret default_config) claims_A1))
      (set_clock 4600000 w_login) =
    (Returned (Null TokenExpired),
     add_log LDebug "Token expired" (set_clock 4600000 w_login)).
Proof.
  apply (expired_token_is_refused_before_the_store default_config claims_A1 4600
           (set_clock 4600000 w_login)).
  - reflexivity.
  - vm_compute. discriminate.
Defined.

Lemma unsigned_token_is_refused_before_the_store_witness :
  run (verifyToken default_config (Jwt "another key" claims_A1)) w_login =
    (Returned (Null TokenInvalid), add_log LWarn "Invalid token" w_login).
Proof.
  apply (unsigned_token_is_refused_before_the_store default_config
           (Jwt "another key" claims_A1) w_login).
  intros claims. discriminate.
Defined.

Lemma access_token_is_good_until_expiry_witness :
  exists claims w3,
    run (verifyToken default_config (accessToken pair_A)) (set_clock 4599999 w_login) =
      (Returned (Granted claims), w3) /\
    userId claims = id alice /\
    deviceId claims = Some "phone".
Proof.
  apply (access_token_is_good_until_expiry default_config alice (Some "phone")
           w0 w_login (set_clock 4599999 w_login) pair_A).
  - repeat split.
  - vm_compute. discriminate.
  - reflexivity.
  - reflexivity.
  - repeat split.
  - vm_compute. discriminate.
  - vm_compute. reflexivity.
Defined.

Lemma unexpired_refresh_token_finds_its_session_witness :
  exists pair w3,
    run (refreshTokens default_config (refreshToken pair_A))
        (set_clock 605799999 w_login) =
      (Returned (Granted pair), w3).
Proof.
  apply (unexpired_refresh_token_finds_its_session default_config alice
           (Some "phone") w0 w_login (set_clock 605799999 w_login) pair_A).
  - repeat split.
  - vm_compute. discriminate.
  - reflexivity.
  - reflexivity.
  - repeat split.
  - vm_compute. discriminate.
  - vm_compute. reflexivity.
Defined.

Lemma rotation_issues_for_the_same_user_and_device_witness :
  exists session access refresh,
    redis_get w_login (session_key (sessionId claims_R1)) = Some session /\
    p_accessToken pair_B = Jwt (secret default_config) access /\
    p_refreshToken pair_B = Jwt (secret default_config) refresh /\
    userId access = userId claims_R1 /\
    userId refresh = userId claims_R1 /\
    sessionId access = uuids w_login (uuid_next w_login) /\
    sessionId refresh = uuids w_login (uuid_next w_login) /\
    deviceId access = s_deviceId session /\
    exp access = Some (clock w_login / 1000 + expiresIn default_config) /\
    exp refresh = Some (clock w_login / 1000 + refreshExpiresIn default_config) /\
    redis w_rotated =
      delete (session_key (sessionId claims_R1))
        (<[session_key (uuids w_login (uuid_next w_login)) :=
             (clock w_login + 604800000,
              new_session (session_user session) (s_deviceId session)
                (clock w_login) (clock w_login))]> (redis w_login)).
Proof.
  apply (rotation_issues_for_the_same_user_and_device default_config
           (secret default_config) claims_R1 pair_B w_login w_rotated).
  reflexivity.
Defined.

Lemma rejected_delete_leaves_both_sessions_witness :
  exists w',
    run (refreshTokens default_config (Jwt (secret default_config) claims_R1))
        w_flaky_delete =
      (Returned (Null StoreUnavailable), w') /\
    redis w' =
      <[session_key (uuids w_flaky_delete (uuid_next w_flaky_delete)) :=
          (clock w_flaky_delete + 604800000,
           new_session (session_user session_A) (s_deviceId session_A)
             (clock w_flaky_delete) (clock w_flaky_delete))]>
        (redis w_flaky_delete) /\
    faults w' = [] /\
    log w' = (log w_flaky_delete ++ [(LError, "Refresh token error:")])%list.
Proof.
  apply (rejected_delete_leaves_both_sessions default_config claims_R1 session_A
           [] w_flaky_delete).
  - reflexivity.
  - reflexivity.
  - reflexivity.
  - intros d [= <-]. vm_compute. reflexivity.
  - vm_compute. reflexivity.
  - reflexivity.
Defined.

Lemma rotated_pair_is_live_witness :
  exists pair w1 granted w2 pair' w3,
    run (refreshTokens default_config (Jwt (secret default_config) claims_R1)) w_login =
      (Returned (Granted pair), w1) /\
    run (verifyToken default_config (p_accessToken pair)) w1 =
      (Returned (Granted granted), w2) /\
    userId granted = userId claims_R1 /\
    deviceId granted = s_deviceId session_A /\
    run (refreshTokens default_config (p_refreshToken pair)) w1 =
      (Returned (Granted pair'), w3).
Proof.
  apply (rotated_pair_is_live default_config claims_R1 session_A w_login).
  - repeat split.
  - reflexivity.
  - reflexivity.
  - intros d [= <-]. vm_compute. reflexivity.
  - vm_compute. reflexivity.
  - reflexivity.
  - vm_compute. discriminate.
Defined.

Lemma revoking_one_session_spares_the_others_witness :
  exists w1 w2,
    run (revokeSession "s7") w_login = (Returned tt, w1) /\
    run (verifyToken default_config (Jwt (secret default_config) claims_A1)) w1 =
      (Returned (Granted claims_A1), w2).
Proof.
  apply (revoking_one_session_spares_the_others default_config "s7" claims_A1
           session_A w_login).
  - repeat split.
  - intros d [= <-]. vm_compute. reflexivity.
  - vm_compute. reflexivity.
  - vm_compute. discriminate.
Defined.

Lemma authenticate_without_bearer_answers_401_witness :
  run (authenticate default_config sample_wire
         {| authorization := Some "Basic A1"; req_user := None;
            req_deviceId := None; body_refreshToken := None |}) w_login =
    (Returned (Respond 401 (ErrorBody "Authorization token required")), w_login).
Proof.
  apply (authenticate_without_bearer_answers_401 default_config sample_wire
           {| authorization := Some "Basic A1"; req_user := None;
              req_deviceId := None; body_refreshToken := None |} w_login).
  reflexivity.
Defined.

Lemma issued_token_authenticates_as_its_user_witness :
  exists req' w2,
    run (authenticate default_config sample_wire (bearer_request "A1")) w_login =
      (Returned (Next req'), w2) /\
    req_user req' =
      Some {| ru_id := id alice;
              ru_email := Some (u_email alice);
              ru_username := Some (u_username alice);
              ru_isHost := Some (or_bool (is_host alice) false);
              ru_isVerified := Some (or_bool (is_verified alice) false) |} /\
    req_deviceId req' = Some "phone" /\
    (requireHost req' = Next req' <-> is_host alice = Some true) /\
    (requireVerified req' = Next req' <-> is_verified alice = Some true).
Proof.
  apply (issued_token_authenticates_as_its_user default_config sample_wire alice
           (Some "phone") pair_A "A1" (bearer_request "A1") w0 w_login).
  - repeat split.
  - reflexivity.
  - reflexivity.
  - reflexivity.
  - reflexivity.
Defined.

Lemma refresh_token_authenticates_without_roles_witness :
  exists req' w2,
    run (authenticate default_config sample_wire (bearer_request "R1")) w_login =
      (Returned (Next req'), w2) /\
    req_user req' =
      Some {| ru_id := id alice;
              ru_email := None;
              ru_username := None;
              ru_isHost := None;
              ru_isVerified := None |} /\
    req_deviceId req' = None /\
    requireHost req' = Respond 403 (ErrorBody "Host privileges required") /\
    requireVerified req' = Respond 403 (ErrorBody "Email verification required").
Proof.
  apply (refresh_token_authenticates_without_roles default_config sample_wire alice
           (Some "phone") pair_A "R1" (bearer_request "R1") w0 w_login).
  - repeat split.
  - reflexivity.
  - reflexivity.
  - reflexivity.
  - reflexivity.
Defined.

Lemma rotated_token_fails_the_role_guards_witness :
  requireHost
    (with_identity (bearer_request "A2")
       (stamp (access_payload (session_user session_A) "s1" (Some "phone")) 1000 3600)) =
    Respond 403 (ErrorBody "Host privileges required") /\
  requireVerified
    (with_identity (bearer_request "A2")
       (stamp (access_payload (session_user session_A) "s1" (Some "phone")) 1000 3600)) =
    Respond 403 (ErrorBody "Email verification required").
Proof.
  apply (rotated_token_fails_the_role_guards default_config sample_wire
           (refreshToken pair_A) pair_B "A2" (bearer_request "A2")
           (with_identity (bearer_request "A2")
              (stamp (access_payload (session_user session_A) "s1" (Some "phone"))
                 1000 3600))
           w_login w_rotated w_rotated
           (snd (run (authenticate default_config sample_wire (bearer_request "A2"))
                   w_rotated))).
  - apply (reach_call default_config w0 (CallGenerateTokens alice (Some "phone"))).
    apply reach_start. reflexivity.
  - reflexivity.
  - reflexivity.
  - reflexivity.
  - reflexivity.
Defined.

Lemma logout_leaves_the_session_live_witness :
  exists w2 claims w3,
    run (behind_authenticate default_config sample_wire logout (bearer_request "A1"))
        w_login =
      (Returned (Respond 200 (MessageBody "Logout successful")), w2) /\
    run (verifyToken default_config (accessToken pair_A)) w2 =
      (Returned (Granted claims), w3) /\
    userId claims = id alice.
Proof.
  apply (logout_leaves_the_session_live default_config sample_wire alice
           (Some "phone") pair_A "A1" (bearer_request "A1") w0 w_login).
  - repeat split.
  - reflexivity.
  - reflexivity.
  - reflexivity.
  - reflexivity.
Defined.

Lemma store_holds_only_session_records_witness :
  (exists sid, "session:s0" = session_key sid) /\ bare session_A.
Proof.
  apply (store_holds_only_session_records default_config w_login "session:s0"
           605800000 session_A).
  - apply (reach_call default_config w0 (CallGenerateTokens alice (Some "phone"))).
    apply reach_start. reflexivity.
  - vm_compute. reflexivity.
Defined.

(** ** Calls in flight together *)

(** A verification that has read the session before a revocation deletes
    it writes the session back: when [verifyToken] sends its [GET], then
    [revokeSession] runs, then [verifyToken] sends its [SETEX], both calls
    succeed, the revoked session is in the store again with seven days to
    live, and the token is granted once more afterwards. *)
Theorem verification_in_flight_undoes_revocation (config : Config)
    (claims : JWTPayload) (session : Session) (w : World) :
  available w ->
  unexpired claims w ->
  redis_get w (session_key (sessionId claims)) = Some session ->
  exists w' w'',
    interleave touch_race_schedule
      (verifyToken config (Jwt (secret config) claims))
      (revokeSession (sessionId claims)) w =
    (Ret (Granted claims), Ret tt, w') /\
    redis w' =
      <[session_key (sessionId claims) :=
          (clock w + 604800000, touch session (clock w))]> (redis w) /\
    run (verifyToken config (Jwt (secret config) claims)) w' =
      (Returned (Granted claims), w'').
Proof.
  intros Hw Hexp Hget.
  assert (Hfresh : match exp claims with
                   | Some d => d <=? clock w / 1000
                   | None => false
                   end = false).
  { destruct (exp claims) as [d|] eqn:E; auto.
    specialize (Hexp d E). lia. }
  set (w1 := redis_setex (session_key (sessionId claims)) session_ttl
               (touch session (clock w))
               (redis_del (session_key (sessionId claims)) w)).
  assert (Hrace :
    interleave touch_race_schedule
      (verifyToken config (Jwt (secret config) claims))
      (revokeSession (sessionId claims)) w =
    (Ret (Granted claims), Ret tt, w1)).
  { subst w1. destruct Hw as (Hc & Hcl & Hf).
    destruct w as [clk cl conn store fl us un lg]. cbn in Hc, Hcl, Hf, Hfresh.
    subst cl conn fl.
    unfold touch_race_schedule, verifyToken, revokeSession, jwt_verify.
    rewrite String.eqb_refl.
    destruct (exp claims) as [d|] eqn:E;
      repeat (cbn -[redis_get session_key Z.div Z.leb Z.add Z.mul session_ttl];
              rewrite ?Hfresh, ?Hget);
      reflexivity. }
  exists w1. eexists. split; [exact Hrace|]. split.
  - subst w1. cbn. apply insert_delete_eq.
  - eapply available_verifyToken.
    + destruct Hw as (H1 & H2 & H3). repeat split; assumption.
    + reflexivity.
    + exact Hexp.
    + subst w1. apply redis_get_setex. reflexivity.
Qed.


Lemma verification_in_flight_undoes_revocation_witness :
  exists w' w'',
    interleave touch_race_schedule
      (verifyToken default_config (Jwt (secret default_config) claims_A1))
      (revokeSession (sessionId claims_A1)) w_login =
    (Ret (Granted claims_A1), Ret tt, w') /\
    redis w' =
      <[session_key (sessionId claims_A1) :=
          (clock w_login + 604800000, touch session_A (clock w_login))]>
        (redis w_login) /\
    run (verifyToken default_config (Jwt (secret default_config) claims_A1)) w' =
      (Returned (Granted claims_A1), w'').
Proof.
  apply (verification_in_flight_undoes_revocation default_config claims_A1
           session_A w_login).
  - repeat split.
  - intros d [= <-]. vm_compute. reflexivity.
  - vm_compute. reflexivity.
Defined.

